(** * docker-tool: the reconciliation engine, embedded and verified

    A shallow embedding of the Go packages [internal/config],
    [internal/nginx] and [internal/watcher].  Go maps are stdpp [gmap]s,
    Go slices are lists, Go [int]s are [Z], [error] results are
    [option error] ([None] is Go's [nil]), and the pieces of mutable state
    the code touches (the shared configuration object, the manager's two
    registries, the file system, the commands it runs and the lines it
    logs) are threaded explicitly through every function. *)

From stdpp Require Import gmap strings list fin_maps pretty.

Open Scope string_scope.
Open Scope Z_scope.
Open Scope list_scope.

(* ===================================================================== *)
(** * Results and the operating system                                    *)
(* ===================================================================== *)

(** A Go call that returns [(value, error)]. *)
Inductive result (E A : Type) : Type :=
| Ok (a : A)
| Err (e : E).
Arguments Ok {E A} a.
Arguments Err {E A} e.

Module os.

(** A file: its bytes and its modification time. *)
Record File := { content : string; modTime : Z }.

(** The two kinds of failure the code tells apart with [os.IsNotExist]. *)
Inductive oserror :=
| ErrNotExist
| ErrPermission.

Definition IsNotExist (e : oserror) : bool :=
  match e with
  | ErrNotExist => true
  | ErrPermission => false
  end.

(** The file system: the files by path, the paths on which every access
    fails for a reason other than absence (permissions, a read-only mount),
    and the clock that stamps the files written. *)
Record FS := {
  files  : gmap string File;
  denied : gset string;
  now    : Z
}.

Definition with_files (fs : FS) (f : gmap string File) : FS :=
  {| files := f; denied := denied fs; now := now fs |}.

(** [os.Stat], reduced to the modification time it is asked for. *)
Definition Stat (fs : FS) (path : string) : result oserror Z :=
  if bool_decide (path ∈ denied fs) then Err ErrPermission
  else match files fs !! path with
       | Some f => Ok (modTime f)
       | None => Err ErrNotExist
       end.

(** [os.ReadFile], and [os.Open] followed by [io.ReadAll]. *)
Definition ReadFile (fs : FS) (path : string) : result oserror string :=
  if bool_decide (path ∈ denied fs) then Err ErrPermission
  else match files fs !! path with
       | Some f => Ok (content f)
       | None => Err ErrNotExist
       end.

(** [os.WriteFile]: creates or truncates, then writes [data]. *)
Definition WriteFile (fs : FS) (path data : string) : FS * option oserror :=
  if bool_decide (path ∈ denied fs) then (fs, Some ErrPermission)
  else (with_files fs (<[path := {| content := data; modTime := now fs |}]> (files fs)), None).

(** [os.Remove]. *)
Definition Remove (fs : FS) (path : string) : FS * option oserror :=
  if bool_decide (path ∈ denied fs) then (fs, Some ErrPermission)
  else match files fs !! path with
       | Some _ => (with_files fs (delete path (files fs)), None)
       | None => (fs, Some ErrNotExist)
       end.

(** [filepath.Join] is left to the platform: the code only ever uses its
    result as the name of a file. *)
Class Filepath := { filepath_Join : string -> string -> string }.

End os.

(* ===================================================================== *)
(** * Package [config]: the declared configuration                        *)
(* ===================================================================== *)

Module config.

(** [ProxyConfig] of config.go. *)
Record ProxyConfig := {
  EnableWebSocket   : bool;
  ClientMaxBodySize : string;
  ProxyHTTPVersion  : string;
  ProxyHeaders      : list string;
  ProxyRedirect     : string
}.

(** Modelled from the spec: the global setting that names the SNI-aware
    stream template (the spec has materialization select "an SNI-aware
    template when the service declares SNI routing").  manager.go reads it as
    [Global.StreamSNITemplateFile]; config.go does not declare it.  It is a
    path, like the two template settings that are declared. *)
Record SNIGlobal := { StreamSNITemplateFile : string }.

(** Modelled from the spec: the SNI routing of a service descriptor (the
    "SNI routing table if applicable" of a registry entry).  manager.go reads
    the three fields off the service as [service.EnableSNI],
    [service.DomainRoutes] and [service.StaticUpstreams]; config.go does not
    declare them.  Their types are those of the [StreamConfig] fields they
    are copied into. *)
Record SNIService := {
  EnableSNI       : bool;
  DomainRoutes    : gmap string string;
  StaticUpstreams : gmap string (list string)
}.

(** [GlobalConfig] of config.go, and in [SNI_] the setting above. *)
Record GlobalConfig := {
  NginxConfigDir     : string;
  StreamConfigDir    : string;
  NginxReloadCmd     : string;
  HTTPTemplateFile   : string;
  StreamTemplateFile : string;
  DefaultProxy       : ProxyConfig;
  HostIP             : string;
  SSLCertPath        : string;
  SSLKeyPath         : string;
  ForceHTTPS         : bool;
  SNI_               : SNIGlobal
}.

(** [ServiceConfig] of config.go, and in [SNI] the routing above.  The
    pointer field [ProxyConfig] is an [option] (nobody writes through it, so
    the pointee is a value). *)
Record ServiceConfig := {
  Name          : string;
  Type_         : string;
  ContainerName : string;
  Domain        : string;
  Path          : string;
  Port          : Z;
  ListenPort    : Z;
  ContainerPort : Z;
  UpstreamName  : string;
  ProxyConfig_  : option ProxyConfig;
  SNI           : SNIService
}.

(** [Config] of config.go; [lastMod] is a [time.Time], here a number of
    ticks, with [0] for the zero time. *)
Record Config := {
  Global   : GlobalConfig;
  Services : list ServiceConfig;
  filePath : string;
  lastMod  : Z
}.

(** [strings.TrimPrefix]: [s] without the leading [prefix], or [s] itself
    when it does not start with [prefix]. *)
Fixpoint strip_prefix (prefix s : string) : option string :=
  match prefix, s with
  | EmptyString, _ => Some s
  | String a p, String b t => if Ascii.eqb a b then strip_prefix p t else None
  | String _ _, EmptyString => None
  end.

Definition strings_TrimPrefix (s prefix : string) : string :=
  match strip_prefix prefix s with
  | Some t => t
  | None => s
  end.

(** The loop of [GetServiceByContainerName], over the remaining services. *)
Fixpoint find_service (normalizedName : string) (services : list ServiceConfig)
  : option ServiceConfig :=
  match services with
  | [] => None
  | service :: rest =>
      let configName := strings_TrimPrefix (ContainerName service) "/" in
      if String.eqb configName normalizedName then Some service
      else find_service normalizedName rest
  end.

(** [Config.GetServiceByContainerName]; the result is a pointer to a
    copy of the service, [None] is [nil]. *)
Definition GetServiceByContainerName (c : Config) (containerName : string)
  : option ServiceConfig :=
  let normalizedName := strings_TrimPrefix containerName "/" in
  find_service normalizedName (Services c).

(** The errors of [Validate] and [ValidateService], one constructor per
    message. *)
Inductive verror :=
| ErrNginxConfigDirEmpty
| ErrStreamConfigDirEmpty
| ErrNginxReloadCmdEmpty
| ErrServiceNameEmpty
| ErrServiceType
| ErrContainerNameEmpty
| ErrUpstreamNameEmpty
| ErrHTTPDomainEmpty
| ErrHTTPPortEmpty
| ErrStreamListenPortEmpty
| ErrStreamContainerPortEmpty.

(** [Config.Validate]: only the global section. *)
Definition Validate (c : Config) : option verror :=
  if String.eqb (NginxConfigDir (Global c)) "" then Some ErrNginxConfigDirEmpty
  else if String.eqb (StreamConfigDir (Global c)) "" then Some ErrStreamConfigDirEmpty
  else if String.eqb (NginxReloadCmd (Global c)) "" then Some ErrNginxReloadCmdEmpty
  else None.

(** [Config.ValidateService]. *)
Definition ValidateService (c : Config) (service : ServiceConfig) : option verror :=
  if String.eqb (Name service) "" then Some ErrServiceNameEmpty
  else if negb (String.eqb (Type_ service) "http") && negb (String.eqb (Type_ service) "stream")
  then Some ErrServiceType
  else if String.eqb (ContainerName service) "" then Some ErrContainerNameEmpty
  else if String.eqb (UpstreamName service) "" then Some ErrUpstreamNameEmpty
  else if String.eqb (Type_ service) "http" && String.eqb (Domain service) ""
  then Some ErrHTTPDomainEmpty
  else if String.eqb (Type_ service) "http" && (Port service =? 0)
  then Some ErrHTTPPortEmpty
  else if String.eqb (Type_ service) "stream" && (ListenPort service =? 0)
  then Some ErrStreamListenPortEmpty
  else if String.eqb (Type_ service) "stream" && (ContainerPort service =? 0)
  then Some ErrStreamContainerPortEmpty
  else None.

(** [yaml.Unmarshal] into a fresh [Config]: the two exported fields, or an
    error.  The decoder is the library's. *)
Class Yaml := { yaml_Unmarshal : string -> option (GlobalConfig * list ServiceConfig) }.

(** The errors of [Load]. *)
Inductive lerror :=
| ErrReadConfig (e : os.oserror)
| ErrParseConfig
| ErrValidateConfig (e : verror).

Section loading.
Context {ym : Yaml}.

(** [Load]. *)
Definition Load (fs : os.FS) (filename : string) : result lerror Config :=
  match os.ReadFile fs filename with
  | Err e => Err (ErrReadConfig e)
  | Ok data =>
      match yaml_Unmarshal data with
      | None => Err ErrParseConfig
      | Some (g, svcs) =>
          let config :=
            {| Global := g; Services := svcs; filePath := filename;
               lastMod := match os.Stat fs filename with
                          | Ok t => t
                          | Err _ => 0
                          end |} in
          match Validate config with
          | Some e => Err (ErrValidateConfig e)
          | None => Ok config
          end
      end
  end.

(** [Config.Reload]: the receiver [c] is the object behind the pointer; the
    first component of the result is that object after the call. *)
Definition Reload (fs : os.FS) (c : Config) : Config * option lerror :=
  match Load fs (filePath c) with
  | Err err => (c, Some err)
  | Ok newConfig => (newConfig, None)
  end.

(** [Config.HasChanged]. *)
Definition HasChanged (fs : os.FS) (c : Config) : bool :=
  match os.Stat fs (filePath c) with
  | Err _ => false
  | Ok t => lastMod c <? t
  end.

End loading.

End config.

(* ===================================================================== *)
(** * Package [nginx]: the upstream registry and its materialization      *)
(* ===================================================================== *)

Module nginx.
Import config.

(** [nat.Port] is a string such as ["9000/tcp"]. *)
Abbreviation nat_Port := string.

(** [UpstreamServer]. *)
Record UpstreamServer := { IP : string; Port_ : nat_Port }.

(** [HTTPConfig]. *)
Record HTTPConfig := {
  h_ServiceName : string;
  h_Domain      : string;
  h_Path        : string;
  h_Upstream    : list UpstreamServer;
  h_ProxyConfig : option ProxyConfig
}.

(** [StreamConfig]. *)
Record StreamConfig := {
  s_ServiceName     : string;
  s_ListenPort      : Z;
  s_Upstream        : list UpstreamServer;
  s_EnableSNI       : bool;
  s_DomainRoutes    : gmap string string;
  s_StaticUpstreams : gmap string (list string)
}.

(** [HTTPTemplateData]. *)
Record HTTPTemplateData := {
  td_ServiceName       : string;
  td_Domain            : string;
  td_Path              : string;
  td_Upstream          : list UpstreamServer;
  td_EnableWebSocket   : bool;
  td_ClientMaxBodySize : string;
  td_ProxyHTTPVersion  : string;
  td_ProxyHeaders      : list string;
  td_ProxyRedirect     : string;
  td_EnableSSL         : bool;
  td_SSLCertificate    : string;
  td_SSLCertificateKey : string;
  td_ForceHTTPS        : bool
}.

(** [StreamTemplateData]. *)
Record StreamTemplateData := {
  sd_ServiceName     : string;
  sd_ListenPort      : Z;
  sd_Upstream        : list UpstreamServer;
  sd_EnableSNI       : bool;
  sd_DomainRoutes    : gmap string string;
  sd_DefaultRoute    : string;
  sd_StaticUpstreams : gmap string (list string)
}.

(** Package [text/template], as far as the manager uses it: [Parse] a text
    into a template or fail, [Execute] a template on the data of an http or
    of a stream service into a text or fail. *)
Class TextTemplate := {
  Template : Type;
  template_Parse : string -> option Template;
  Execute_http : Template -> HTTPTemplateData -> option string;
  Execute_stream : Template -> StreamTemplateData -> option string
}.

(** [exec.Command(...).CombinedOutput()]: whether the command exits with
    success. *)
Class Exec := { CombinedOutput_ok : list string -> bool }.

(** The errors the manager returns. *)
Inductive error :=
| ErrUnsupportedType (t : string)
| ErrWriteHTTP (filename : string) (e : os.oserror)
| ErrWriteStream (filename : string) (e : os.oserror)
| ErrDeleteHTTP (e : os.oserror)
| ErrDeleteStream (e : os.oserror)
| ErrReloadCmdEmpty
| ErrReloadCmdFailed.

(** The errors of [loadTemplate]. *)
Inductive terror :=
| ErrTemplatePathEmpty
| ErrTemplateMissing (path : string)
| ErrTemplateOpen (e : os.oserror).

(** The lines the two packages log, one constructor per [log.Printf]. *)
Inductive logline :=
| LogLoadHTTPTemplate (e : terror)
| LogParseHTTPTemplate
| LogRenderHTTPTemplate
| LogLoadStreamTemplate (e : terror)
| LogParseStreamTemplate
| LogRenderStreamTemplate
| LogReloadCmd (cmd : string)
| LogReloadOk
| LogInspectFailed (containerID : string)
| LogNoService (containerName : string)
| LogInvalidService (name : string) (e : verror)
| LogHandleStart (containerName : string)
| LogHandleStop (containerName : string)
| LogHandleRename (containerName : string)
| LogNoContainerIP (name : string)
| LogNoContainerPort (name : string)
| LogUpdateFailed (name : string) (e : error)
| LogReloadFailed (name : string) (e : error)
| LogUpdated (name : string)
| LogEvent (action containerID : string)
| LogConfigChanged
| LogConfigReloadFailed (e : lerror)
| LogConfigReloaded.

(** Everything a call can read or change.  [cfg] is the one [Config]
    object of the process: [watcher.New] hands the same pointer to the
    watcher and to [NewManager], so [Watcher.config] and [Manager.config]
    are this object, and [Config.Reload] overwrites it in place.
    [httpConfigs] and [streamConfigs] are the manager's two maps; their
    values are pointers in Go, reached only through the map, so a write
    through such a pointer is a write to the map here.  [cmds] are the
    commands run so far and [logs] the lines logged, latest first.  The
    manager's mutex serialises [UpdateService]; calls are atomic here. *)
Record World := {
  cfg           : Config;
  httpConfigs   : gmap string HTTPConfig;
  streamConfigs : gmap string StreamConfig;
  fs            : os.FS;
  cmds          : list (list string);
  logs          : list logline
}.

Definition with_cfg (w : World) (c : Config) : World :=
  {| cfg := c; httpConfigs := httpConfigs w; streamConfigs := streamConfigs w;
     fs := fs w; cmds := cmds w; logs := logs w |}.

Definition with_httpConfigs (w : World) (m : gmap string HTTPConfig) : World :=
  {| cfg := cfg w; httpConfigs := m; streamConfigs := streamConfigs w;
     fs := fs w; cmds := cmds w; logs := logs w |}.

Definition with_streamConfigs (w : World) (m : gmap string StreamConfig) : World :=
  {| cfg := cfg w; httpConfigs := httpConfigs w; streamConfigs := m;
     fs := fs w; cmds := cmds w; logs := logs w |}.

Definition with_fs (w : World) (f : os.FS) : World :=
  {| cfg := cfg w; httpConfigs := httpConfigs w; streamConfigs := streamConfigs w;
     fs := f; cmds := cmds w; logs := logs w |}.

Definition run_cmd (w : World) (c : list string) : World :=
  {| cfg := cfg w; httpConfigs := httpConfigs w; streamConfigs := streamConfigs w;
     fs := fs w; cmds := c :: cmds w; logs := logs w |}.

Definition log_Printf (w : World) (l : logline) : World :=
  {| cfg := cfg w; httpConfigs := httpConfigs w; streamConfigs := streamConfigs w;
     fs := fs w; cmds := cmds w; logs := l :: logs w |}.

Definition h_with_Upstream (h : HTTPConfig) (u : list UpstreamServer) : HTTPConfig :=
  {| h_ServiceName := h_ServiceName h; h_Domain := h_Domain h; h_Path := h_Path h;
     h_Upstream := u; h_ProxyConfig := h_ProxyConfig h |}.

Definition s_with_Upstream (s : StreamConfig) (u : list UpstreamServer) : StreamConfig :=
  {| s_ServiceName := s_ServiceName s; s_ListenPort := s_ListenPort s; s_Upstream := u;
     s_EnableSNI := s_EnableSNI s; s_DomainRoutes := s_DomainRoutes s;
     s_StaticUpstreams := s_StaticUpstreams s |}.

(** [NewManager], in a process that has loaded [c] and done nothing yet. *)
Definition NewManager (c : Config) (f : os.FS) : World :=
  {| cfg := c; httpConfigs := ∅; streamConfigs := ∅; fs := f; cmds := []; logs := [] |}.

(** [Manager.loadTemplate]. *)
Definition loadTemplate (w : World) (templateFile : string) : result terror string :=
  if String.eqb templateFile "" then Err ErrTemplatePathEmpty
  else match os.Stat (fs w) templateFile with
       | Err os.ErrNotExist => Err (ErrTemplateMissing templateFile)
       | _ =>
           match os.ReadFile (fs w) templateFile with
           | Err e => Err (ErrTemplateOpen e)
           | Ok content => Ok content
           end
       end.

(** [Manager.updateUpstreamServer]: the first server with the same IP is
    overwritten in place, otherwise the server is appended. *)
Fixpoint updateUpstreamServer (upstream : list UpstreamServer) (server : UpstreamServer)
  : list UpstreamServer :=
  match upstream with
  | [] => [server]
  | existingServer :: rest =>
      if String.eqb (IP existingServer) (IP server) then server :: rest
      else existingServer :: updateUpstreamServer rest server
  end.

(** [Manager.removeUpstreamServer]: the first server with that IP is cut
    out, and the loop returns. *)
Fixpoint removeUpstreamServer (upstream : list UpstreamServer) (ip : string)
  : list UpstreamServer :=
  match upstream with
  | [] => []
  | server :: rest =>
      if String.eqb (IP server) ip then rest
      else server :: removeUpstreamServer rest ip
  end.

Section manager.
Context {tt : TextTemplate} {ex : Exec} {fp : os.Filepath}.

(** [Manager.buildHTTPConfigContent]: the text, or [""] after logging why
    there is none. *)
Definition buildHTTPConfigContent (w : World) (httpConfig : HTTPConfig) : World * string :=
  let proxyConfig :=
    match h_ProxyConfig httpConfig with
    | Some p => p
    | None => DefaultProxy (Global (cfg w))
    end in
  let templateData :=
    {| td_ServiceName := h_ServiceName httpConfig;
       td_Domain := h_Domain httpConfig;
       td_Path := h_Path httpConfig;
       td_Upstream := h_Upstream httpConfig;
       td_EnableWebSocket := EnableWebSocket proxyConfig;
       td_ClientMaxBodySize := ClientMaxBodySize proxyConfig;
       td_ProxyHTTPVersion := ProxyHTTPVersion proxyConfig;
       td_ProxyHeaders := ProxyHeaders proxyConfig;
       td_ProxyRedirect := ProxyRedirect proxyConfig;
       td_EnableSSL := negb (String.eqb (SSLCertPath (Global (cfg w))) "")
                       && negb (String.eqb (SSLKeyPath (Global (cfg w))) "");
       td_SSLCertificate := SSLCertPath (Global (cfg w));
       td_SSLCertificateKey := SSLKeyPath (Global (cfg w));
       td_ForceHTTPS := ForceHTTPS (Global (cfg w)) |} in
  match loadTemplate w (HTTPTemplateFile (Global (cfg w))) with
  | Err err => (log_Printf w (LogLoadHTTPTemplate err), "")
  | Ok templateContent =>
      match template_Parse templateContent with
      | None => (log_Printf w LogParseHTTPTemplate, "")
      | Some tmpl =>
          match Execute_http tmpl templateData with
          | None => (log_Printf w LogRenderHTTPTemplate, "")
          | Some text => (w, text)
          end
      end
  end.

(** [Manager.buildStreamConfigContent]. *)
Definition buildStreamConfigContent (w : World) (streamConfig : StreamConfig) : World * string :=
  let templateData :=
    {| sd_ServiceName := s_ServiceName streamConfig;
       sd_ListenPort := s_ListenPort streamConfig;
       sd_Upstream := s_Upstream streamConfig;
       sd_EnableSNI := s_EnableSNI streamConfig;
       sd_DomainRoutes := s_DomainRoutes streamConfig;
       sd_DefaultRoute := s_ServiceName streamConfig;
       sd_StaticUpstreams := s_StaticUpstreams streamConfig |} in
  let templateFile :=
    if s_EnableSNI streamConfig then
      if String.eqb (StreamSNITemplateFile (SNI_ (Global (cfg w)))) ""
      then "conf/stream-sni.conf.tpl"
      else StreamSNITemplateFile (SNI_ (Global (cfg w)))
    else StreamTemplateFile (Global (cfg w)) in
  match loadTemplate w templateFile with
  | Err err => (log_Printf w (LogLoadStreamTemplate err), "")
  | Ok templateContent =>
      match template_Parse templateContent with
      | None => (log_Printf w LogParseStreamTemplate, "")
      | Some tmpl =>
          match Execute_stream tmpl templateData with
          | None => (log_Printf w LogRenderStreamTemplate, "")
          | Some text => (w, text)
          end
      end
  end.

(** The path of a service's artifact: [filepath.Join(dir, name + ".conf")]. *)
Definition conf_path (dir serviceName : string) : string :=
  os.filepath_Join dir (serviceName +:+ ".conf").

(** [Manager.deleteHTTPConfig]. *)
Definition deleteHTTPConfig (w : World) (serviceName : string) : World * option error :=
  let filepath := conf_path (NginxConfigDir (Global (cfg w))) serviceName in
  let '(fs', err) := os.Remove (fs w) filepath in
  let w := with_fs w fs' in
  let dropped := with_httpConfigs w (delete serviceName (httpConfigs w)) in
  match err with
  | Some e => if negb (os.IsNotExist e) then (w, Some (ErrDeleteHTTP e)) else (dropped, None)
  | None => (dropped, None)
  end.

(** [Manager.deleteStreamConfig]. *)
Definition deleteStreamConfig (w : World) (serviceName : string) : World * option error :=
  let filepath := conf_path (StreamConfigDir (Global (cfg w))) serviceName in
  let '(fs', err) := os.Remove (fs w) filepath in
  let w := with_fs w fs' in
  let dropped := with_streamConfigs w (delete serviceName (streamConfigs w)) in
  match err with
  | Some e => if negb (os.IsNotExist e) then (w, Some (ErrDeleteStream e)) else (dropped, None)
  | None => (dropped, None)
  end.

(** [Manager.generateHTTPConfig]. *)
Definition generateHTTPConfig (w : World) (httpConfig : HTTPConfig) : World * option error :=
  if (length (h_Upstream httpConfig) =? 0)%nat then
    deleteHTTPConfig w (h_ServiceName httpConfig)
  else
    let '(w1, configContent) := buildHTTPConfigContent w httpConfig in
    let filename := h_ServiceName httpConfig +:+ ".conf" in
    let filepath := os.filepath_Join (NginxConfigDir (Global (cfg w1))) filename in
    let '(fs', err) := os.WriteFile (fs w1) filepath configContent in
    match err with
    | Some e => (with_fs w1 fs', Some (ErrWriteHTTP filename e))
    | None => (with_fs w1 fs', None)
    end.

(** [Manager.generateStreamConfig]. *)
Definition generateStreamConfig (w : World) (streamConfig : StreamConfig) : World * option error :=
  if (length (s_Upstream streamConfig) =? 0)%nat && negb (s_EnableSNI streamConfig) then
    deleteStreamConfig w (s_ServiceName streamConfig)
  else
    let '(w1, configContent) := buildStreamConfigContent w streamConfig in
    let filename := s_ServiceName streamConfig +:+ ".conf" in
    let filepath := os.filepath_Join (StreamConfigDir (Global (cfg w1))) filename in
    let '(fs', err) := os.WriteFile (fs w1) filepath configContent in
    match err with
    | Some e => (with_fs w1 fs', Some (ErrWriteStream filename e))
    | None => (with_fs w1 fs', None)
    end.

(** The branch both update functions share: with an IP and a port the
    server is added or updated, otherwise the server with that IP is
    removed. *)
Definition apply_member (upstream : list UpstreamServer) (containerIP : string)
  (containerPort : nat_Port) : list UpstreamServer :=
  if negb (String.eqb containerIP "") && negb (String.eqb containerPort "") then
    updateUpstreamServer upstream {| IP := containerIP; Port_ := containerPort |}
  else
    removeUpstreamServer upstream containerIP.

(** [Manager.updateHTTPService]. *)
Definition updateHTTPService (w : World) (service : ServiceConfig) (containerIP : string)
  (containerPort : nat_Port) : World * option error :=
  let httpConfig :=
    match httpConfigs w !! Name service with
    | Some httpConfig => httpConfig
    | None =>
        {| h_ServiceName := Name service;
           h_Domain := Domain service;
           h_Path := Path service;
           h_Upstream := [];
           h_ProxyConfig := ProxyConfig_ service |}
    end in
  let httpConfig := h_with_Upstream httpConfig
                      (apply_member (h_Upstream httpConfig) containerIP containerPort) in
  let w := with_httpConfigs w (<[Name service := httpConfig]> (httpConfigs w)) in
  generateHTTPConfig w httpConfig.

(** [Manager.updateStreamService]. *)
Definition updateStreamService (w : World) (service : ServiceConfig) (containerIP : string)
  (containerPort : nat_Port) : World * option error :=
  let streamConfig :=
    match streamConfigs w !! Name service with
    | Some streamConfig => streamConfig
    | None =>
        {| s_ServiceName := Name service;
           s_ListenPort := ListenPort service;
           s_Upstream := [];
           s_EnableSNI := EnableSNI (SNI service);
           s_DomainRoutes := DomainRoutes (SNI service);
           s_StaticUpstreams := StaticUpstreams (SNI service) |}
    end in
  let streamConfig := s_with_Upstream streamConfig
                        (apply_member (s_Upstream streamConfig) containerIP containerPort) in
  let w := with_streamConfigs w (<[Name service := streamConfig]> (streamConfigs w)) in
  generateStreamConfig w streamConfig.

(** [Manager.UpdateService]. *)
Definition UpdateService (w : World) (service : ServiceConfig) (containerIP : string)
  (containerPort : nat_Port) : World * option error :=
  if String.eqb (Type_ service) "http" then
    updateHTTPService w service containerIP containerPort
  else if String.eqb (Type_ service) "stream" then
    updateStreamService w service containerIP containerPort
  else (w, Some (ErrUnsupportedType (Type_ service))).

(** [Manager.UpdateConfig]: the manager is handed the pointer it already
    holds. *)
Definition UpdateConfig (w : World) : World := w.

(** [unicode.IsSpace] on the bytes of a Go string.  A string is UTF-8, and
    the white space characters are U+0009 to U+000D and U+0020 (one byte
    each), U+0085 and U+00A0 (C2 85, C2 A0), U+1680 (E1 9A 80), U+2000 to
    U+200A, U+2028, U+2029 and U+202F (E2 80 80 to E2 80 8A, E2 80 A8,
    E2 80 A9, E2 80 AF), U+205F (E2 81 9F) and U+3000 (E3 80 80).  The three
    tests take the bytes as numbers. *)
Definition space1 (b1 : nat) : bool :=
  ((b1 =? 32) || ((9 <=? b1) && (b1 <=? 13)))%nat.

Definition space2 (b1 b2 : nat) : bool :=
  ((b1 =? 194) && ((b2 =? 133) || (b2 =? 160)))%nat.

Definition space3 (b1 b2 b3 : nat) : bool :=
  (((b1 =? 225) && (b2 =? 154) && (b3 =? 128))
   || ((b1 =? 226) && (b2 =? 128)
       && (((128 <=? b3) && (b3 <=? 138)) || (b3 =? 168) || (b3 =? 169) || (b3 =? 175)))
   || ((b1 =? 226) && (b2 =? 129) && (b3 =? 159))
   || ((b1 =? 227) && (b2 =? 128) && (b3 =? 128)))%nat.

(** The number of bytes of the white space character that [s] starts with,
    and 0 when it starts with none.  The first byte of each encoding above is
    never a continuation byte, so Go's decoder starts a character at every
    such byte, whatever precedes it: a white space character stands wherever
    its bytes do. *)
Definition space_width (s : string) : nat :=
  match s with
  | EmptyString => 0%nat
  | String c1 t1 =>
      if space1 (Ascii.nat_of_ascii c1) then 1%nat
      else
        match t1 with
        | EmptyString => 0%nat
        | String c2 t2 =>
            if space2 (Ascii.nat_of_ascii c1) (Ascii.nat_of_ascii c2) then 2%nat
            else
              match t2 with
              | EmptyString => 0%nat
              | String c3 _ =>
                  if space3 (Ascii.nat_of_ascii c1) (Ascii.nat_of_ascii c2)
                       (Ascii.nat_of_ascii c3)
                  then 3%nat else 0%nat
              end
        end
  end.

(** [strings.Fields]: [cur] is the field being read, and [skip] counts the
    bytes still to pass over of a white space character that has been met.
    A byte that starts no white space character goes to the field as it is
    (the bytes of any other character, well formed or not, do). *)
Fixpoint Fields_from (skip : nat) (cur s : string) : list string :=
  match s with
  | EmptyString => if String.eqb cur "" then [] else [cur]
  | String c t =>
      match skip with
      | S k => Fields_from k cur t
      | O =>
          match space_width (String c t) with
          | O => Fields_from 0 (cur +:+ String c "") t
          | S k =>
              if String.eqb cur "" then Fields_from k "" t
              else cur :: Fields_from k "" t
          end
      end
  end.

Definition strings_Fields (s : string) : list string := Fields_from 0 "" s.

(** [Manager.Reload]. *)
Definition Reload (w : World) : World * option error :=
  let w := log_Printf w (LogReloadCmd (NginxReloadCmd (Global (cfg w)))) in
  let parts := strings_Fields (NginxReloadCmd (Global (cfg w))) in
  if (length parts =? 0)%nat then (w, Some ErrReloadCmdEmpty)
  else
    let w := run_cmd w parts in
    if CombinedOutput_ok parts then (log_Printf w LogReloadOk, None)
    else (w, Some ErrReloadCmdFailed).

End manager.

End nginx.

(* ===================================================================== *)
(** * Package [watcher]: address resolution and the event handlers        *)
(* ===================================================================== *)

Module watcher.
Import config nginx.

(** [network.EndpointSettings], [nat.PortBinding] and [types.ContainerJSON]
    of the Docker client, with the fields the watcher reads.  [Networks] is
    a Go map; it is a list of pairs here because [getContainerIP] ranges
    over it, and the list gives the order in which that loop meets the
    entries.  [Ports] is only ever looked up. *)
Record EndpointSettings := { IPAddress : string }.

Record PortBinding := { pb_HostIP : string; HostPort : string }.

Record ContainerJSON := {
  c_Name   : string;
  Networks : list (string * EndpointSettings);
  Ports    : gmap string (list PortBinding)
}.

(** [events.Message]: the action and the actor's ID. *)
Record Message := { Action : string; ActorID : string }.

(** [_, exists := container.NetworkSettings.Networks[name]]. *)
Definition has_network (container : ContainerJSON) (name : string) : bool :=
  existsb (fun ne => String.eqb (fst ne) name) (Networks container).

(** [Watcher.getContainerIP]. *)
Definition getContainerIP (w : World) (container : ContainerJSON) : string :=
  if has_network container "host" then HostIP (Global (cfg w))
  else
    match find (fun ne => negb (String.eqb (fst ne) "bridge")
                          && negb (String.eqb (IPAddress (snd ne)) ""))
               (Networks container) with
    | Some (_, network) => IPAddress network
    | None =>
        if has_network container "bridge" then HostIP (Global (cfg w))
        else ""
    end.

(** [fmt.Sprintf("%d/proto", n)]. *)
Definition port_of (n : Z) (proto : string) : nat_Port :=
  pretty n +:+ "/" +:+ proto.

(** [portBindings, exists := Ports[port]; exists && len(portBindings) > 0],
    and then [portBindings[0].HostPort]. *)
Definition first_binding (container : ContainerJSON) (port : nat_Port) : option string :=
  match Ports container !! port with
  | Some (b :: _) => Some (HostPort b)
  | _ => None
  end.

(** The bridge block of [getContainerPort]: the value it returns, or [None]
    when control leaves the block without returning. *)
Definition bridge_block (container : ContainerJSON) (targetPort : Z) : option nat_Port :=
  match first_binding container (port_of targetPort "tcp") with
  | Some hostPort => Some (hostPort +:+ "/tcp")
  | None =>
      match first_binding container (port_of targetPort "udp") with
      | Some hostPort => Some (hostPort +:+ "/udp")
      | None => None
      end
  end.

(** The first lines of [getContainerPort]: [targetPort], which stays at
    Go's zero value for a type that is neither http nor stream. *)
Definition target_port (service : ServiceConfig) : Z :=
  if String.eqb (Type_ service) "http" then Port service
  else if String.eqb (Type_ service) "stream" then ContainerPort service
  else 0.

(** [Watcher.getContainerPort]. *)
Definition getContainerPort (container : ContainerJSON) (service : ServiceConfig) : nat_Port :=
  let targetPort := target_port service in
  if has_network container "host" then port_of targetPort "tcp"
  else
    match (if has_network container "bridge" then bridge_block container targetPort
           else None) with
    | Some p => p
    | None =>
        if bool_decide (is_Some (Ports container !! port_of targetPort "tcp"))
        then port_of targetPort "tcp"
        else if bool_decide (is_Some (Ports container !! port_of targetPort "udp"))
        then port_of targetPort "udp"
        else port_of targetPort "tcp"
    end.

Section handlers.
Context {tt : TextTemplate} {ex : Exec} {fp : os.Filepath} {ym : Yaml}.

(** The tail of [updateNginxConfig], from the call of [UpdateService] on. *)
Definition update_and_reload (w : World) (service : ServiceConfig) (containerIP : string)
  (containerPort : nat_Port) : World :=
  match UpdateService w service containerIP containerPort with
  | (w, Some err) => log_Printf w (LogUpdateFailed (Name service) err)
  | (w, None) =>
      match nginx.Reload w with
      | (w, Some err) => log_Printf w (LogReloadFailed (Name service) err)
      | (w, None) => log_Printf w (LogUpdated (Name service))
      end
  end.

(** [Watcher.updateNginxConfig]; [container] is [None] for Go's [nil]. *)
Definition updateNginxConfig (w : World) (service : ServiceConfig)
  (container : option ContainerJSON) : World :=
  match container with
  | Some container =>
      let containerIP := getContainerIP w container in
      let containerPort := getContainerPort container service in
      if String.eqb containerIP "" then log_Printf w (LogNoContainerIP (Name service))
      else if String.eqb containerPort "" then log_Printf w (LogNoContainerPort (Name service))
      else update_and_reload w service containerIP containerPort
  | None => update_and_reload w service "" ""
  end.

(** The handlers take [ContainerInspect], the runtime's answer to an
    inspection at the time of the event ([None] when the call fails). *)
Section inspect.
Variable ContainerInspect : string -> option ContainerJSON.

(** [Watcher.handleContainerStart]. *)
Definition handleContainerStart (w : World) (containerID : string) : World :=
  match ContainerInspect containerID with
  | None => log_Printf w (LogInspectFailed containerID)
  | Some container =>
      match GetServiceByContainerName (cfg w) (c_Name container) with
      | None => log_Printf w (LogNoService (c_Name container))
      | Some service =>
          match ValidateService (cfg w) service with
          | Some err => log_Printf w (LogInvalidService (Name service) err)
          | None =>
              let w := log_Printf w (LogHandleStart (c_Name container)) in
              updateNginxConfig w service (Some container)
          end
      end
  end.

(** [Watcher.handleContainerStop]. *)
Definition handleContainerStop (w : World) (containerID : string) : World :=
  match ContainerInspect containerID with
  | None => log_Printf w (LogInspectFailed containerID)
  | Some container =>
      match GetServiceByContainerName (cfg w) (c_Name container) with
      | None => w
      | Some service =>
          match ValidateService (cfg w) service with
          | Some err => log_Printf w (LogInvalidService (Name service) err)
          | None =>
              let w := log_Printf w (LogHandleStop (c_Name container)) in
              updateNginxConfig w service None
          end
      end
  end.

(** [Watcher.handleContainerRename]. *)
Definition handleContainerRename (w : World) (containerID : string) : World :=
  match ContainerInspect containerID with
  | None => log_Printf w (LogInspectFailed containerID)
  | Some container =>
      match GetServiceByContainerName (cfg w) (c_Name container) with
      | None => w
      | Some service =>
          match ValidateService (cfg w) service with
          | Some err => log_Printf w (LogInvalidService (Name service) err)
          | None =>
              let w := log_Printf w (LogHandleRename (c_Name container)) in
              updateNginxConfig w service (Some container)
          end
      end
  end.

(** [Watcher.handleEvent]. *)
Definition handleEvent (w : World) (event : Message) : World :=
  let w := log_Printf w (LogEvent (Action event) (ActorID event)) in
  if String.eqb (Action event) "start" then handleContainerStart w (ActorID event)
  else if String.eqb (Action event) "stop" || String.eqb (Action event) "die"
  then handleContainerStop w (ActorID event)
  else if String.eqb (Action event) "rename" then handleContainerRename w (ActorID event)
  else w.

End inspect.

(** One tick of [watchConfigFile]; the boolean tells whether the tick ends
    by spawning [checkExistingContainers]. *)
Definition watchConfigFile_tick (w : World) : World * bool :=
  if HasChanged (fs w) (cfg w) then
    let w := log_Printf w LogConfigChanged in
    match config.Reload (fs w) (cfg w) with
    | (c, Some err) => (log_Printf (with_cfg w c) (LogConfigReloadFailed err), false)
    | (c, None) =>
        let w := UpdateConfig (with_cfg w c) in
        (log_Printf w LogConfigReloaded, true)
    end
  else (w, false).

End handlers.

End watcher.

(* ===================================================================== *)
(** * The shipped http template and a template engine that knows it       *)
(* ===================================================================== *)

Module shipped.
Import config nginx.

Definition nl : string := String (Ascii.ascii_of_nat 10) "".

(** [nat.Port.Port]: the port number, which is what stands before the first
    slash. *)
Fixpoint before_slash (s : string) : string :=
  match s with
  | EmptyString => ""
  | String c t => if Ascii.eqb c (Ascii.ascii_of_nat 47) then "" else String c (before_slash t)
  end.

Definition Port_Port (p : nat_Port) : string := before_slash p.

(** [{{- if .Field }} text {{- end }}] on a string field: the text when the
    field is not empty. *)
Definition if_set (field text : string) : string :=
  if String.eqb field "" then "" else text.

(** Lines 9 to 11 of conf/http.conf.tpl, one round of the range. *)
Definition server_line (u : UpstreamServer) : string :=
  nl +:+ "    server " +:+ IP u +:+ ":" +:+ Port_Port (Port_ u) +:+ ";".

(** Lines 58 to 60 (and 90 to 92), one round of the range. *)
Definition header_line (h : string) : string :=
  nl +:+ "        proxy_set_header " +:+ h +:+ ";".

Definition concat_map {A} (f : A -> string) (l : list A) : string :=
  foldr (fun x acc => f x +:+ acc) "" l.

(** Lines 41 to 66, which are also lines 73 to 98: the location block and
    the end of the server block. *)
Definition location_block (d : HTTPTemplateData) : string :=
  nl +:+ nl +:+ "    location " +:+ td_Path d +:+ " {"
  +:+ (if td_EnableWebSocket d then
         nl +:+ "        proxy_http_version 1.1;"
         +:+ nl +:+ "        proxy_set_header Upgrade $http_upgrade;"
         +:+ nl +:+ "        proxy_set_header Connection $connection_upgrade;"
       else "")
  +:+ if_set (td_ClientMaxBodySize d)
        (nl +:+ "        client_max_body_size " +:+ td_ClientMaxBodySize d +:+ ";")
  +:+ nl +:+ nl +:+ "        proxy_pass http://" +:+ td_ServiceName d +:+ "/;"
  +:+ if_set (td_ProxyHTTPVersion d)
        (nl +:+ "        proxy_http_version " +:+ td_ProxyHTTPVersion d +:+ ";")
  +:+ concat_map header_line (td_ProxyHeaders d)
  +:+ if_set (td_ProxyRedirect d)
        (nl +:+ "        proxy_redirect " +:+ td_ProxyRedirect d +:+ ";")
  +:+ nl +:+ "    }" +:+ nl +:+ "}".

(** Lines 1 to 13: the websocket map and the upstream block. *)
Definition upstream_block (d : HTTPTemplateData) : string :=
  (if td_EnableWebSocket d then
     nl +:+ "map $http_upgrade $connection_upgrade {"
     +:+ nl +:+ "    default upgrade;"
     +:+ nl +:+ "    '' close;"
     +:+ nl +:+ "}"
   else "")
  +:+ nl +:+ nl +:+ "upstream " +:+ td_ServiceName d +:+ " {"
  +:+ concat_map server_line (td_Upstream d)
  +:+ nl +:+ "}".

(** Lines 14 to 40: the servers of the TLS branch, up to the location. *)
Definition ssl_servers (d : HTTPTemplateData) : string :=
  (if td_ForceHTTPS d then
     nl +:+ "# HTTP 到 HTTPS 重定向"
     +:+ nl +:+ "server {"
     +:+ nl +:+ "    listen          80;"
     +:+ nl +:+ "    listen          [::]:80;"
     +:+ nl
     +:+ nl +:+ "    server_name     " +:+ td_Domain d +:+ ";"
     +:+ nl +:+ "    rewrite ^(.*)$  https://$host$1 permanent;"
     +:+ nl +:+ "}"
   else "")
  +:+ nl +:+ nl +:+ "# HTTPS 服务器配置"
  +:+ nl +:+ "server {"
  +:+ nl +:+ "    listen  443       ssl;"
  +:+ nl +:+ "    listen  [::]:443  ssl;"
  +:+ nl +:+ "    http2   on;"
  +:+ nl
  +:+ nl +:+ "    server_name " +:+ td_Domain d +:+ ";"
  +:+ if_set (td_SSLCertificate d)
        (nl +:+ "    ssl_certificate     " +:+ td_SSLCertificate d +:+ ";")
  +:+ if_set (td_SSLCertificateKey d)
        (nl +:+ "    ssl_certificate_key " +:+ td_SSLCertificateKey d +:+ ";").

(** Lines 67 to 72: the server of the plain branch, up to the location. *)
Definition plain_server (d : HTTPTemplateData) : string :=
  nl +:+ "# HTTP 服务器配置"
  +:+ nl +:+ "server {"
  +:+ nl +:+ "    listen 80;"
  +:+ nl +:+ "    server_name " +:+ td_Domain d +:+ ";".

(** What [text/template] makes of conf/http.conf.tpl on [d]: every action
    of the file opens with a left trim marker, which removes the white space
    that ends the text before it, and none has a right trim marker; [if] on
    a string holds when the string is not empty. *)
Definition http_conf_tpl (d : HTTPTemplateData) : string :=
  upstream_block d
  +:+ (if td_EnableSSL d then ssl_servers d else plain_server d)
  +:+ location_block d
  +:+ nl.

(** The text of conf/http.conf.tpl. *)
Definition http_conf_tpl_text : string :=
"{{- if .EnableWebSocket }}
map $http_upgrade $connection_upgrade {
    default upgrade;
    '' close;
}
{{- end }}

upstream {{ .ServiceName }} {
{{- range .Upstream }}
    server {{ .IP }}:{{ .Port.Port }};
{{- end }}
}

{{- if .EnableSSL }}
{{- if .ForceHTTPS }}
# HTTP 到 HTTPS 重定向
server {
    listen          80;
    listen          [::]:80;

    server_name     {{ .Domain }};
    rewrite ^(.*)$  https://$host$1 permanent;
}
{{- end }}

# HTTPS 服务器配置
server {
    listen  443       ssl;
    listen  [::]:443  ssl;
    http2   on;

    server_name {{ .Domain }};

    {{- if .SSLCertificate }}
    ssl_certificate     {{ .SSLCertificate }};
    {{- end }}
    {{- if .SSLCertificateKey }}
    ssl_certificate_key {{ .SSLCertificateKey }};
    {{- end }}

    location {{ .Path }} {
        {{- if .EnableWebSocket }}
        proxy_http_version 1.1;
        proxy_set_header Upgrade $http_upgrade;
        proxy_set_header Connection $connection_upgrade;
        {{- end }}

        {{- if .ClientMaxBodySize }}
        client_max_body_size {{ .ClientMaxBodySize }};
        {{- end }}

        proxy_pass http://{{ .ServiceName }}/;

        {{- if .ProxyHTTPVersion }}
        proxy_http_version {{ .ProxyHTTPVersion }};
        {{- end }}

        {{- range .ProxyHeaders }}
        proxy_set_header {{ . }};
        {{- end }}

        {{- if .ProxyRedirect }}
        proxy_redirect {{ .ProxyRedirect }};
        {{- end }}
    }
}
{{- else }}
# HTTP 服务器配置
server {
    listen 80;
    server_name {{ .Domain }};

    location {{ .Path }} {
        {{- if .EnableWebSocket }}
        proxy_http_version 1.1;
        proxy_set_header Upgrade $http_upgrade;
        proxy_set_header Connection $connection_upgrade;
        {{- end }}

        {{- if .ClientMaxBodySize }}
        client_max_body_size {{ .ClientMaxBodySize }};
        {{- end }}

        proxy_pass http://{{ .ServiceName }}/;

        {{- if .ProxyHTTPVersion }}
        proxy_http_version {{ .ProxyHTTPVersion }};
        {{- end }}

        {{- range .ProxyHeaders }}
        proxy_set_header {{ . }};
        {{- end }}

        {{- if .ProxyRedirect }}
        proxy_redirect {{ .ProxyRedirect }};
        {{- end }}
    }
}
{{- end }}
".

(** [strings.Contains]. *)
Definition strings_Contains (s substr : string) : bool :=
  match String.index 0 substr s with
  | Some _ => true
  | None => false
  end.

(** [needle] occurs in [text]. *)
Definition occurs (needle text : string) : Prop :=
  ∃ pre post, text = pre +:+ needle +:+ post.

(** An engine for the scenarios: it parses the shipped http template, and
    nothing else. *)
Inductive shipped_template := TplHTTP.

Definition engine : TextTemplate := {|
  Template := shipped_template;
  template_Parse text := if String.eqb text http_conf_tpl_text then Some TplHTTP else None;
  Execute_http _ d := Some (http_conf_tpl d);
  Execute_stream _ _ := None
|}.

(** The reload command always succeeds, paths are joined with a slash, and
    the decoder of the declared configuration is not needed. *)
Definition exec_ok : Exec := {| CombinedOutput_ok _ := true |}.

Definition join_slash : os.Filepath :=
  {| os.filepath_Join dir file := dir +:+ "/" +:+ file |}.

End shipped.

(* ===================================================================== *)
(** * Runs of the registry, and the map they are compared with            *)
(* ===================================================================== *)

Module registry.
Import config nginx.

(** A call [UpdateService(service, ip, port)] is written [(ip, port)]: an
    upsert when both are non-empty, a remove otherwise. *)
Definition is_upsert (op : string * nat_Port) : bool :=
  negb (String.eqb op.1 "") && negb (String.eqb op.2 "").

(** The member list of a service in the registry: the upstream of its
    entry, in the map of its type, and no member when it has no entry. *)
Definition members (w : World) (service : ServiceConfig) : list UpstreamServer :=
  if String.eqb (Type_ service) "http" then
    match httpConfigs w !! Name service with
    | Some h => h_Upstream h
    | None => []
    end
  else if String.eqb (Type_ service) "stream" then
    match streamConfigs w !! Name service with
    | Some s => s_Upstream s
    | None => []
    end
  else [].

(** A member list read as a finite map from address to port. *)
Definition member_map (l : list UpstreamServer) : gmap string string :=
  list_to_map ((λ u, (IP u, Port_ u)) <$> l).

(** The spec's reading of a sequence of operations: an upsert assigns the
    port to the address, a remove deletes the address. *)
Definition replay_step (m : gmap string string) (op : string * nat_Port) : gmap string string :=
  if is_upsert op then <[op.1 := op.2]> m else delete op.1 m.

Definition replay (ops : list (string * nat_Port)) : gmap string string :=
  foldl replay_step ∅ ops.

(** Every entry sits under its own service name: what [updateHTTPService]
    and [updateStreamService] establish when they create an entry. *)
Definition keyed (w : World) : Prop :=
  (∀ k h, httpConfigs w !! k = Some h → h_ServiceName h = k)
  ∧ (∀ k s, streamConfigs w !! k = Some s → s_ServiceName s = k).

(** The entry an update works on: the one in the map, or a fresh one made
    from the service descriptor. *)
Definition http_entry (w : World) (service : ServiceConfig) : HTTPConfig :=
  default {| h_ServiceName := Name service; h_Domain := Domain service;
             h_Path := Path service; h_Upstream := [];
             h_ProxyConfig := ProxyConfig_ service |}
          (httpConfigs w !! Name service).

Definition stream_entry (w : World) (service : ServiceConfig) : StreamConfig :=
  default {| s_ServiceName := Name service; s_ListenPort := ListenPort service;
             s_Upstream := []; s_EnableSNI := EnableSNI (SNI service);
             s_DomainRoutes := DomainRoutes (SNI service);
             s_StaticUpstreams := StaticUpstreams (SNI service) |}
          (streamConfigs w !! Name service).

Section runs.
Context {tt : TextTemplate} {ex : Exec} {fp : os.Filepath}.

(** The code's run of the same sequence: one [UpdateService] per operation,
    whatever each call returns. *)
Definition run_ops (w : World) (service : ServiceConfig) (ops : list (string * nat_Port))
  : World :=
  foldl (λ w op, (UpdateService w service op.1 op.2).1) w ops.

End runs.

End registry.

(* ===================================================================== *)
(** * A concrete deployment                                               *)
(* ===================================================================== *)

Module scenario.
Import config nginx watcher.

Definition default_proxy : ProxyConfig :=
  {| EnableWebSocket := false; ClientMaxBodySize := "2048M"; ProxyHTTPVersion := "1.1";
     ProxyHeaders := ["X-Real-IP $remote_addr"]; ProxyRedirect := "off" |}.

Definition global : GlobalConfig :=
  {| NginxConfigDir := "/etc/nginx/conf.d";
     StreamConfigDir := "/etc/nginx/stream.d";
     NginxReloadCmd := "docker exec nginx-ui nginx -s reload";
     HTTPTemplateFile := "conf/http.conf.tpl";
     StreamTemplateFile := "conf/stream.conf.tpl";
     DefaultProxy := default_proxy;
     HostIP := "192.168.31.100";
     SSLCertPath := ""; SSLKeyPath := ""; ForceHTTPS := false;
     SNI_ := {| StreamSNITemplateFile := "" |} |}.

Definition no_sni : SNIService :=
  {| EnableSNI := false; DomainRoutes := ∅; StaticUpstreams := ∅ |}.

(** The http service of the README and of the spec's scenario. *)
Definition api : ServiceConfig :=
  {| Name := "api"; Type_ := "http"; ContainerName := "my-api";
     Domain := "api.example.com"; Path := "/"; Port := 9000;
     ListenPort := 0; ContainerPort := 0; UpstreamName := "api_backend";
     ProxyConfig_ := None; SNI := no_sni |}.

(** A stream service, and the same service with SNI routing. *)
Definition mysql : ServiceConfig :=
  {| Name := "mysql"; Type_ := "stream"; ContainerName := "mysql-db";
     Domain := ""; Path := ""; Port := 0;
     ListenPort := 3306; ContainerPort := 3306; UpstreamName := "mysql_backend";
     ProxyConfig_ := None; SNI := no_sni |}.

Definition tls : ServiceConfig :=
  {| Name := "tls"; Type_ := "stream"; ContainerName := "tls-gw";
     Domain := ""; Path := ""; Port := 0;
     ListenPort := 443; ContainerPort := 8443; UpstreamName := "tls_backend";
     ProxyConfig_ := None;
     SNI := {| EnableSNI := true;
               DomainRoutes := {[ "a.example.com" := "pool_a" ]};
               StaticUpstreams := {[ "pool_a" := ["10.0.0.9:443"] ]} |} |}.

Definition declared : Config :=
  {| Global := global; Services := [api; mysql; tls];
     filePath := "conf/config.yaml"; lastMod := 1 |}.

(** The disk holds the shipped http template and a template for SNI
    routing. *)
Definition disk : os.FS :=
  {| os.files := {[ "conf/http.conf.tpl" :=
                      {| os.content := shipped.http_conf_tpl_text; os.modTime := 1 |};
                    "conf/stream-sni.conf.tpl" :=
                      {| os.content := "# the SNI template"; os.modTime := 1 |} ]};
     os.denied := ∅;
     os.now := 2 |}.

(** The container [my-api] on the default bridge, container port 9000
    published as host port 33000. *)
Definition my_api : ContainerJSON :=
  {| c_Name := "/my-api";
     Networks := [("bridge", {| IPAddress := "172.17.0.2" |})];
     Ports := {[ "9000/tcp" := [ {| pb_HostIP := "0.0.0.0"; HostPort := "33000" |} ] ]} |}.

(** The same container on the bridge with nothing published. *)
Definition my_api_unpublished : ContainerJSON :=
  {| c_Name := "/my-api";
     Networks := [("bridge", {| IPAddress := "172.17.0.2" |})];
     Ports := ∅ |}.

(** What an inspection returns once the container has stopped: the
    network is still named, the address and the ports are gone. *)
Definition my_api_stopped : ContainerJSON :=
  {| c_Name := "/my-api";
     Networks := [("bridge", {| IPAddress := "" |})];
     Ports := ∅ |}.

Definition inspect (container : ContainerJSON) (containerID : string) : option ContainerJSON :=
  if String.eqb containerID "c1" then Some container else None.

Definition start_c1 : Message := {| Action := "start"; ActorID := "c1" |}.
Definition stop_c1 : Message := {| Action := "stop"; ActorID := "c1" |}.
Definition die_c1 : Message := {| Action := "die"; ActorID := "c1" |}.

(** A fresh process. *)
Definition boot : World := NewManager declared disk.

(** The handlers on the engine that knows the shipped template. *)
Definition handle (container : ContainerJSON) (w : World) (event : Message) : World :=
  handleEvent (tt := shipped.engine) (ex := shipped.exec_ok) (fp := shipped.join_slash)
    (inspect container) w event.

Definition update (w : World) (service : ServiceConfig) (ip : string) (port : nat_Port)
  : World * option error :=
  UpdateService (tt := shipped.engine) (fp := shipped.join_slash) w service ip port.

(** A service descriptor with another [upstream_name]. *)
Definition with_UpstreamName (service : ServiceConfig) (u : string) : ServiceConfig :=
  {| Name := Name service; Type_ := Type_ service; ContainerName := ContainerName service;
     Domain := Domain service; Path := Path service; Port := Port service;
     ListenPort := ListenPort service; ContainerPort := ContainerPort service;
     UpstreamName := u; ProxyConfig_ := ProxyConfig_ service; SNI := SNI service |}.

(** A run of upserts and removes on [api]. *)
Definition ops : list (string * nat_Port) :=
  [("10.0.0.1", "80/tcp"); ("10.0.0.2", "81/tcp"); ("10.0.0.1", "90/tcp"); ("10.0.0.2", "")].

(** An engine on which every text parses and renders to a fixed line. *)
Definition fixed_engine : TextTemplate :=
  {| Template := unit;
     template_Parse _ := Some ();
     Execute_http _ _ := Some "# http";
     Execute_stream _ _ := Some "# stream" |}.

(** The entry that [updateStreamService] makes for [tls] when no container
    of it has been seen. *)
Definition tls_entry : StreamConfig :=
  {| s_ServiceName := "tls"; s_ListenPort := 443; s_Upstream := [];
     s_EnableSNI := true;
     s_DomainRoutes := DomainRoutes (SNI tls);
     s_StaticUpstreams := StaticUpstreams (SNI tls) |}.

(** [api] as a later version of the declared configuration has it, and
    that configuration. *)
Definition api_v2 : ServiceConfig :=
  {| Name := "api"; Type_ := "http"; ContainerName := "my-api";
     Domain := "api.example.org"; Path := "/v2/"; Port := 9000;
     ListenPort := 0; ContainerPort := 0; UpstreamName := "api_backend";
     ProxyConfig_ := Some default_proxy; SNI := no_sni |}.

Definition declared_v2 : Config :=
  {| Global := global; Services := [api_v2; mysql; tls];
     filePath := "conf/config.yaml"; lastMod := 5 |}.

(** The registry after [my-api] has started. *)
Definition started : World := handle my_api boot start_c1.

(** A disk on which the artifact of [api] exists and the template is gone. *)
Definition disk_without_template : os.FS :=
  {| os.files := {[ "/etc/nginx/conf.d/api.conf" :=
                      {| os.content := "upstream api { server 10.0.0.1:80; }"; os.modTime := 1 |} ]};
     os.denied := ∅;
     os.now := 2 |}.

(** A decoder that reads the text [v2] as the second version of the
    declared configuration and rejects every other text, and a disk on which
    the configuration file has been edited to hold [text]. *)
Definition decoder : Yaml :=
  {| yaml_Unmarshal text :=
       if String.eqb text "v2" then Some (global, [api_v2; mysql; tls]) else None |}.

Definition disk_edited (text : string) : os.FS :=
  os.with_files disk
    (<["conf/config.yaml" := {| os.content := text; os.modTime := 5 |}]> (os.files disk)).

Definition tick (w : World) : World * bool :=
  watchConfigFile_tick (ym := decoder) w.

End scenario.

(* ===================================================================== *)
(** * The plain stream template and the builder it replaced               *)
(* ===================================================================== *)

Module legacy.
Import nginx shipped.

(** [StreamConfig] of the earlier manager (src/unnamed/part_001). *)
Record StreamConfig := {
  ServiceName : string;
  ListenPort  : Z;
  Upstream    : list UpstreamServer
}.

(** One round of the loop of the earlier [buildStreamConfigContent]:
    [fmt.Sprintf("    server %s:%s;\n", server.IP, server.Port.Port())]. *)
Definition server_written (server : UpstreamServer) : string :=
  "    server " +:+ IP server +:+ ":" +:+ Port_Port (Port_ server) +:+ ";" +:+ nl.

(** The earlier [Manager.buildStreamConfigContent]: the strings it writes
    to its [strings.Builder], in order. *)
Definition buildStreamConfigContent (streamConfig : StreamConfig) : string :=
  ("upstream " +:+ ServiceName streamConfig +:+ " {" +:+ nl)
  +:+ concat_map server_written (Upstream streamConfig)
  +:+ ("}" +:+ nl +:+ nl)
  +:+ ("server {" +:+ nl)
  +:+ ("    listen " +:+ pretty (ListenPort streamConfig) +:+ ";" +:+ nl)
  +:+ ("    proxy_pass " +:+ ServiceName streamConfig +:+ ";" +:+ nl)
  +:+ ("}" +:+ nl).

(** What [text/template] makes of the plain stream template
    (src/unnamed/part_000) on [d]: the range and its end open with a left
    trim marker, so the line break before each of them is dropped. *)
Definition stream_conf_tpl (d : StreamTemplateData) : string :=
  "upstream " +:+ sd_ServiceName d +:+ " {"
  +:+ concat_map server_line (sd_Upstream d)
  +:+ nl +:+ "}" +:+ nl
  +:+ nl +:+ "server {"
  +:+ nl +:+ "    listen " +:+ pretty (sd_ListenPort d) +:+ ";"
  +:+ nl +:+ "    proxy_pass " +:+ sd_ServiceName d +:+ ";"
  +:+ nl +:+ "}" +:+ nl.

End legacy.

(* ===================================================================== *)
(** * What can be observed of a world, and more containers                *)
(* ===================================================================== *)

Module observe.
Import config nginx watcher.

(** Everything of a world but the lines logged. *)
Definition observable (w : World)
  : Config * gmap string HTTPConfig * gmap string StreamConfig * os.FS * list (list string) :=
  (cfg w, httpConfigs w, streamConfigs w, fs w, cmds w).

(** A world with other lines in its log. *)
Definition with_logs (w : World) (l : list logline) : World :=
  {| cfg := cfg w; httpConfigs := httpConfigs w; streamConfigs := streamConfigs w;
     fs := fs w; cmds := cmds w; logs := l |}.

(** Whether a string holds a white space character: whether one starts at
    some byte of it. *)
Fixpoint has_space (s : string) : bool :=
  match s with
  | EmptyString => false
  | String c t => negb (space_width (String c t) =? 0)%nat || has_space t
  end.

(** No white space character starts at a byte of [cur] when [cur] is
    followed by [rest]. *)
Fixpoint no_space_in (cur rest : string) : bool :=
  match cur with
  | EmptyString => true
  | String c t => (space_width (String c t +:+ rest) =? 0)%nat && no_space_in t rest
  end.

(** A reload command with a no-break space (U+00A0) between two of its
    words, and one made of no-break spaces only. *)
Definition nbsp : string :=
  String (Ascii.ascii_of_nat 194) (String (Ascii.ascii_of_nat 160) "").

Definition reload_cmd_nbsp : string :=
  "docker exec nginx-ui nginx" +:+ nbsp +:+ "-s reload".

(** An inspection that always fails. *)
Definition no_container (containerID : string) : option ContainerJSON := None.

(** A container in host network mode. *)
Definition on_host : ContainerJSON :=
  {| c_Name := "/my-api";
     Networks := [("host", {| IPAddress := "" |})];
     Ports := ∅ |}.

(** A container attached to a macvlan network with its own address, and to
    the bridge with port 9000 published as 33000. *)
Definition on_macvlan_and_bridge : ContainerJSON :=
  {| c_Name := "/my-api";
     Networks := [("lan", {| IPAddress := "10.1.2.3" |});
                  ("bridge", {| IPAddress := "172.17.0.2" |})];
     Ports := {[ "9000/tcp" := [ {| pb_HostIP := "0.0.0.0"; HostPort := "33000" |} ] ]} |}.

(** A container on a macvlan network only, with 9000/udp exposed. *)
Definition on_macvlan_udp : ContainerJSON :=
  {| c_Name := "/my-api";
     Networks := [("lan", {| IPAddress := "10.1.2.3" |})];
     Ports := {[ "9000/udp" := [] ]} |}.

(** A disk on which the directory of the http artifacts cannot be written. *)
Definition disk_read_only : os.FS :=
  {| os.files := os.files scenario.disk;
     os.denied := {[ "/etc/nginx/conf.d/api.conf" ]};
     os.now := 2 |}.

(** A registry that holds one member for [api]. *)
Definition api_entry : HTTPConfig :=
  {| h_ServiceName := "api"; h_Domain := "api.example.com"; h_Path := "/";
     h_Upstream := [{| IP := "10.0.0.1"; Port_ := "80/tcp" |}]; h_ProxyConfig := None |}.

Definition with_member (f : os.FS) : World :=
  with_httpConfigs (NewManager scenario.declared f) {[ "api" := api_entry ]}.

End observe.

(* ===================================================================== *)
(** * The service matcher                                                 *)
(* ===================================================================== *)

Module matcher_facts.
Import config.

Lemma TrimPrefix_slash_cons (t : string) :
  strings_TrimPrefix (String (Ascii.ascii_of_nat 47) t) "/" = t.
Proof. reflexivity. Qed.

Lemma TrimPrefix_slash_other (s : string) :
  (∀ t, s ≠ String (Ascii.ascii_of_nat 47) t) → strings_TrimPrefix s "/" = s.
Proof.
  intros Hs. destruct s as [|a t]; [reflexivity|].
  unfold strings_TrimPrefix.
  change (strip_prefix "/" (String a t))
    with (if Ascii.eqb (Ascii.ascii_of_nat 47) a then Some t else None).
  destruct (Ascii.eqb (Ascii.ascii_of_nat 47) a) eqn:E; [|reflexivity].
  apply Ascii.eqb_eq in E. subst a. exfalso. by apply (Hs t).
Qed.

Lemma find_service_Some (key : string) (services : list ServiceConfig) (service : ServiceConfig) :
  find_service key services = Some service ↔
  ∃ before after,
    services = before ++ service :: after
    ∧ strings_TrimPrefix (ContainerName service) "/" = key
    ∧ Forall (λ s, strings_TrimPrefix (ContainerName s) "/" ≠ key) before.
Proof.
  induction services as [|s rest IH]; simpl.
  - split; [done|]. intros (before & after & Heq & _). by destruct before.
  - destruct (String.eqb (strings_TrimPrefix (ContainerName s) "/") key) eqn:E.
    + apply String.eqb_eq in E. split.
      * intros [= <-]. exists [], rest. by repeat split.
      * intros (before & after & Heq & Hk & Hno).
        destruct before as [|b before]; simpl in Heq.
        -- by inversion Heq.
        -- inversion Heq; subst. inversion Hno; subst. contradiction.
    + apply String.eqb_neq in E. rewrite IH. split.
      * intros (before & after & -> & Hk & Hno).
        exists (s :: before), after. repeat split; [done|]. by constructor.
      * intros (before & after & Heq & Hk & Hno).
        destruct before as [|b before]; simpl in Heq.
        -- inversion Heq; subst. contradiction.
        -- inversion Heq; subst. inversion Hno; subst.
           exists before, after. by repeat split.
Qed.

Lemma find_service_None (key : string) (services : list ServiceConfig) :
  find_service key services = None ↔
  Forall (λ s, strings_TrimPrefix (ContainerName s) "/" ≠ key) services.
Proof.
  induction services as [|s rest IH]; simpl.
  - split; [constructor|done].
  - destruct (String.eqb (strings_TrimPrefix (ContainerName s) "/") key) eqn:E.
    + apply String.eqb_eq in E. split; [done|].
      intros Hall. inversion Hall; subst. contradiction.
    + apply String.eqb_neq in E. rewrite IH. split.
      * intros Hall. by constructor.
      * intros Hall. by inversion Hall.
Qed.

(** C10.  [GetServiceByContainerName] compares names after taking one
    leading slash off each (a name that starts with a slash loses exactly
    that character, any other name is left as it is); it returns a service
    exactly when that service is the first one of the declared list, in
    declaration order, whose container name matches, and it returns none
    exactly when no declared container name matches. *)
Theorem GetServiceByContainerName_first_match (c : Config) (containerName : string) :
  (∀ t, strings_TrimPrefix (String (Ascii.ascii_of_nat 47) t) "/" = t)
  ∧ (∀ s, (∀ t, s ≠ String (Ascii.ascii_of_nat 47) t) → strings_TrimPrefix s "/" = s)
  ∧ (∀ service,
       GetServiceByContainerName c containerName = Some service ↔
       ∃ before after,
         Services c = before ++ service :: after
         ∧ strings_TrimPrefix (ContainerName service) "/"
           = strings_TrimPrefix containerName "/"
         ∧ Forall (λ s, strings_TrimPrefix (ContainerName s) "/"
                        ≠ strings_TrimPrefix containerName "/") before)
  ∧ (GetServiceByContainerName c containerName = None ↔
     Forall (λ s, strings_TrimPrefix (ContainerName s) "/"
                  ≠ strings_TrimPrefix containerName "/") (Services c)).
Proof.
  split; [apply TrimPrefix_slash_cons|].
  split; [apply TrimPrefix_slash_other|].
  split.
  - intros service. apply find_service_Some.
  - apply find_service_None.
Qed.

End matcher_facts.

(* ===================================================================== *)
(** * The upstream registry                                               *)
(* ===================================================================== *)

Module registry_facts.
Import config nginx registry.

Lemma updateUpstreamServer_map (l : list UpstreamServer) (server : UpstreamServer) :
  member_map (updateUpstreamServer l server)
  = <[IP server := Port_ server]> (member_map l).
Proof.
  unfold member_map. induction l as [|e rest IH]; cbn [updateUpstreamServer]; [done|].
  destruct (String.eqb (IP e) (IP server)) eqn:E;
    rewrite !fmap_cons, !list_to_map_cons.
  - apply String.eqb_eq in E. rewrite E. by rewrite insert_insert_eq.
  - apply String.eqb_neq in E. rewrite IH. by apply insert_insert_ne.
Qed.

Lemma updateUpstreamServer_ips (l : list UpstreamServer) (server : UpstreamServer) :
  IP <$> updateUpstreamServer l server
  = if bool_decide (IP server ∈ IP <$> l) then IP <$> l else (IP <$> l) ++ [IP server].
Proof.
  induction l as [|e rest IH]; cbn [updateUpstreamServer]; [done|].
  destruct (String.eqb (IP e) (IP server)) eqn:E; rewrite !fmap_cons.
  - apply String.eqb_eq in E. rewrite bool_decide_eq_true_2; [by rewrite E|].
    rewrite E. apply list_elem_of_here.
  - apply String.eqb_neq in E. rewrite IH.
    destruct (bool_decide (IP server ∈ IP <$> rest)) eqn:D.
    + apply bool_decide_eq_true_1 in D.
      rewrite bool_decide_eq_true_2; [done|]. by apply list_elem_of_further.
    + apply bool_decide_eq_false_1 in D.
      rewrite bool_decide_eq_false_2; [done|].
      intros Hin. apply elem_of_cons in Hin as [Heq|Hin]; [by symmetry in Heq|done].
Qed.

Lemma updateUpstreamServer_NoDup (l : list UpstreamServer) (server : UpstreamServer) :
  NoDup (IP <$> l) → NoDup (IP <$> updateUpstreamServer l server).
Proof.
  intros Hnd. rewrite updateUpstreamServer_ips. case_bool_decide as Hin; [done|].
  apply NoDup_app. split; [done|]. split.
  - intros x Hx Hx'. apply list_elem_of_singleton in Hx'. by subst.
  - apply NoDup_singleton.
Qed.

Lemma removeUpstreamServer_sublist (l : list UpstreamServer) (ip : string) :
  sublist (IP <$> removeUpstreamServer l ip) (IP <$> l).
Proof.
  induction l as [|e rest IH]; cbn [removeUpstreamServer]; [done|].
  destruct (String.eqb (IP e) ip); rewrite !fmap_cons.
  - by apply sublist_cons.
  - by apply sublist_skip.
Qed.

Lemma removeUpstreamServer_NoDup (l : list UpstreamServer) (ip : string) :
  NoDup (IP <$> l) → NoDup (IP <$> removeUpstreamServer l ip).
Proof. intros Hnd. exact (sublist_NoDup _ _ Hnd (removeUpstreamServer_sublist l ip)). Qed.

Lemma removeUpstreamServer_map (l : list UpstreamServer) (ip : string) :
  NoDup (IP <$> l) →
  member_map (removeUpstreamServer l ip) = delete ip (member_map l).
Proof.
  unfold member_map. induction l as [|e rest IH]; cbn [removeUpstreamServer]; intros Hnd.
  - by rewrite fmap_nil, list_to_map_nil, delete_empty.
  - rewrite fmap_cons in Hnd. apply NoDup_cons in Hnd as [Hnotin Hnd].
    destruct (String.eqb (IP e) ip) eqn:E; rewrite !fmap_cons, !list_to_map_cons.
    + apply String.eqb_eq in E. subst ip.
      rewrite delete_insert_eq. symmetry. apply delete_id.
      apply not_elem_of_list_to_map_1.
      by rewrite <- list_fmap_compose.
    + apply String.eqb_neq in E. rewrite IH; [|done].
      rewrite delete_insert. by case_decide; [subst|].
Qed.

(** The shared branch keeps addresses distinct and acts on the map of the
    members as the replayed operation does. *)
Lemma apply_member_NoDup (l : list UpstreamServer) (ip : string) (port : nat_Port) :
  NoDup (IP <$> l) → NoDup (IP <$> apply_member l ip port).
Proof.
  intros Hnd. unfold apply_member.
  destruct (negb (String.eqb ip "") && negb (String.eqb port "")).
  - by apply updateUpstreamServer_NoDup.
  - by apply removeUpstreamServer_NoDup.
Qed.

Lemma apply_member_map (l : list UpstreamServer) (op : string * nat_Port) :
  NoDup (IP <$> l) →
  member_map (apply_member l op.1 op.2) = replay_step (member_map l) op.
Proof.
  intros Hnd. unfold apply_member, replay_step, is_upsert.
  destruct (negb (String.eqb op.1 "") && negb (String.eqb op.2 "")).
  - by rewrite updateUpstreamServer_map.
  - by apply removeUpstreamServer_map.
Qed.

Section steps.
Context {tt : TextTemplate} {ex : Exec} {fp : os.Filepath}.

(** Rendering touches nothing but the log. *)
Lemma buildHTTPConfigContent_frame (w : World) (h : HTTPConfig) :
  let w' := (buildHTTPConfigContent w h).1 in
  cfg w' = cfg w ∧ httpConfigs w' = httpConfigs w
  ∧ streamConfigs w' = streamConfigs w ∧ fs w' = fs w ∧ cmds w' = cmds w.
Proof.
  unfold buildHTTPConfigContent.
  destruct (loadTemplate w _) as [text|e]; [|done].
  destruct (template_Parse text) as [tmpl|]; [|done].
  by destruct (Execute_http tmpl _).
Qed.

Lemma buildStreamConfigContent_frame (w : World) (s : StreamConfig) :
  let w' := (buildStreamConfigContent w s).1 in
  cfg w' = cfg w ∧ httpConfigs w' = httpConfigs w
  ∧ streamConfigs w' = streamConfigs w ∧ fs w' = fs w ∧ cmds w' = cmds w.
Proof.
  unfold buildStreamConfigContent.
  destruct (loadTemplate w _) as [text|e]; [|done].
  destruct (template_Parse text) as [tmpl|]; [|done].
  by destruct (Execute_stream tmpl _).
Qed.

(** What a materialization does to the registry: nothing, or (only when the
    entry has no member) it drops the entry. *)
Lemma generateHTTPConfig_registry (w : World) (h : HTTPConfig) :
  let w' := (generateHTTPConfig w h).1 in
  cfg w' = cfg w ∧ streamConfigs w' = streamConfigs w
  ∧ (httpConfigs w' = httpConfigs w
     ∨ (h_Upstream h = [] ∧ httpConfigs w' = delete (h_ServiceName h) (httpConfigs w))).
Proof.
  unfold generateHTTPConfig.
  destruct (h_Upstream h) as [|u us] eqn:Eu; simpl.
  - unfold deleteHTTPConfig.
    destruct (os.Remove _ _) as [fs' [e|]]; [destruct e|]; simpl; auto.
  - pose proof (buildHTTPConfigContent_frame w h) as (Hc & Hh & Hs & _).
    destruct (buildHTTPConfigContent w h) as [w1 text]. simpl in *.
    destruct (os.WriteFile _ _ _) as [fs' [e|]]; simpl; auto.
Qed.

Lemma generateStreamConfig_registry (w : World) (s : StreamConfig) :
  let w' := (generateStreamConfig w s).1 in
  cfg w' = cfg w ∧ httpConfigs w' = httpConfigs w
  ∧ (streamConfigs w' = streamConfigs w
     ∨ (s_Upstream s = [] ∧ streamConfigs w' = delete (s_ServiceName s) (streamConfigs w))).
Proof.
  unfold generateStreamConfig.
  destruct (s_Upstream s) as [|u us] eqn:Eu; simpl.
  - destruct (s_EnableSNI s); simpl.
    + pose proof (buildStreamConfigContent_frame w s) as (Hc & Hh & Hs & _).
      destruct (buildStreamConfigContent w s) as [w1 text]. simpl in *.
      destruct (os.WriteFile _ _ _) as [fs' [e|]]; simpl; auto.
    + unfold deleteStreamConfig.
      destruct (os.Remove _ _) as [fs' [e|]]; [destruct e|]; simpl; auto.
  - pose proof (buildStreamConfigContent_frame w s) as (Hc & Hh & Hs & _).
    destruct (buildStreamConfigContent w s) as [w1 text]. simpl in *.
    destruct (os.WriteFile _ _ _) as [fs' [e|]]; simpl; auto.
Qed.

(** The registry after [updateHTTPService]: the entry of the service holds
    the old entry with the new member list, or it is gone, which happens
    only when that list is empty; the other map and the configuration are
    as before. *)
Lemma updateHTTPService_registry (w : World) (service : ServiceConfig)
  (ip : string) (port : nat_Port) :
  let h := h_with_Upstream (http_entry w service)
             (apply_member (h_Upstream (http_entry w service)) ip port) in
  let w' := (updateHTTPService w service ip port).1 in
  cfg w' = cfg w ∧ streamConfigs w' = streamConfigs w
  ∧ (httpConfigs w' = <[Name service := h]> (httpConfigs w)
     ∨ (h_Upstream h = []
        ∧ httpConfigs w' = delete (h_ServiceName h) (<[Name service := h]> (httpConfigs w)))).
Proof.
  intros h w'. subst w'. unfold updateHTTPService.
  change (match httpConfigs w !! Name service with
          | Some httpConfig => httpConfig
          | None => _
          end) with (http_entry w service).
  fold h.
  exact (generateHTTPConfig_registry
           (with_httpConfigs w (<[Name service := h]> (httpConfigs w))) h).
Qed.

Lemma updateStreamService_registry (w : World) (service : ServiceConfig)
  (ip : string) (port : nat_Port) :
  let s := s_with_Upstream (stream_entry w service)
             (apply_member (s_Upstream (stream_entry w service)) ip port) in
  let w' := (updateStreamService w service ip port).1 in
  cfg w' = cfg w ∧ httpConfigs w' = httpConfigs w
  ∧ (streamConfigs w' = <[Name service := s]> (streamConfigs w)
     ∨ (s_Upstream s = []
        ∧ streamConfigs w' = delete (s_ServiceName s) (<[Name service := s]> (streamConfigs w)))).
Proof.
  intros s w'. subst w'. unfold updateStreamService.
  change (match streamConfigs w !! Name service with
          | Some streamConfig => streamConfig
          | None => _
          end) with (stream_entry w service).
  fold s.
  exact (generateStreamConfig_registry
           (with_streamConfigs w (<[Name service := s]> (streamConfigs w))) s).
Qed.

Lemma http_entry_name (w : World) (service : ServiceConfig) :
  keyed w → h_ServiceName (http_entry w service) = Name service.
Proof.
  intros [Hk _]. unfold http_entry.
  destruct (httpConfigs w !! Name service) as [h|] eqn:E; simpl; [|done].
  by apply Hk.
Qed.

Lemma stream_entry_name (w : World) (service : ServiceConfig) :
  keyed w → s_ServiceName (stream_entry w service) = Name service.
Proof.
  intros [_ Hk]. unfold stream_entry.
  destruct (streamConfigs w !! Name service) as [s|] eqn:E; simpl; [|done].
  by apply Hk.
Qed.

Lemma members_http (w : World) (service : ServiceConfig) :
  Type_ service = "http" → members w service = h_Upstream (http_entry w service).
Proof.
  intros Ht. unfold members, http_entry. rewrite Ht. simpl.
  by destruct (httpConfigs w !! Name service).
Qed.

Lemma members_stream (w : World) (service : ServiceConfig) :
  Type_ service = "stream" → members w service = s_Upstream (stream_entry w service).
Proof.
  intros Ht. unfold members, stream_entry. rewrite Ht. simpl.
  by destruct (streamConfigs w !! Name service).
Qed.

(** One call of [UpdateService] on a service of a known type acts on the
    member list of the service as the shared branch does, whatever happens
    to the files. *)
Lemma UpdateService_members (w : World) (service : ServiceConfig) (op : string * nat_Port) :
  Type_ service = "http" ∨ Type_ service = "stream" →
  keyed w →
  keyed (UpdateService w service op.1 op.2).1
  ∧ members (UpdateService w service op.1 op.2).1 service
    = apply_member (members w service) op.1 op.2.
Proof.
  intros [Ht|Ht] Hk; unfold UpdateService; rewrite Ht; simpl.
  - pose proof (updateHTTPService_registry w service op.1 op.2) as (_ & Hs & Hh).
    pose proof (http_entry_name w service Hk) as Hn.
    rewrite (members_http _ _ Ht), (members_http w _ Ht).
    set (w' := (updateHTTPService w service op.1 op.2).1) in *.
    set (h := h_with_Upstream _ _) in *.
    assert (Hkey : ∀ k h', <[Name service := h]> (httpConfigs w) !! k = Some h'
                           → h_ServiceName h' = k).
    { intros k h'. rewrite lookup_insert. case_decide as Hd.
      - subst k. intros [= <-]. done.
      - by apply Hk. }
    destruct Hh as [Hh|[Hnil Hh]].
    + split.
      * split; [by rewrite Hh|rewrite Hs; apply Hk].
      * unfold http_entry. by rewrite Hh, lookup_insert_eq.
    + split.
      * split; [|rewrite Hs; apply Hk].
        intros k h'. rewrite Hh, lookup_delete. case_decide; [done|]. apply Hkey.
      * unfold http_entry at 1. rewrite Hh.
        change (h_ServiceName h) with (h_ServiceName (http_entry w service)).
        rewrite Hn, lookup_delete_eq. simpl. by rewrite <- Hnil.
  - pose proof (updateStreamService_registry w service op.1 op.2) as (_ & Hh & Hs).
    pose proof (stream_entry_name w service Hk) as Hn.
    rewrite (members_stream _ _ Ht), (members_stream w _ Ht).
    set (w' := (updateStreamService w service op.1 op.2).1) in *.
    set (s := s_with_Upstream _ _) in *.
    assert (Hkey : ∀ k s', <[Name service := s]> (streamConfigs w) !! k = Some s'
                           → s_ServiceName s' = k).
    { intros k s'. rewrite lookup_insert. case_decide as Hd.
      - subst k. intros [= <-]. done.
      - by apply Hk. }
    destruct Hs as [Hs|[Hnil Hs]].
    + split.
      * split; [rewrite Hh; apply Hk|by rewrite Hs].
      * unfold stream_entry. by rewrite Hs, lookup_insert_eq.
    + split.
      * split; [rewrite Hh; apply Hk|].
        intros k s'. rewrite Hs, lookup_delete. case_decide; [done|]. apply Hkey.
      * unfold stream_entry at 1. rewrite Hs.
        change (s_ServiceName s) with (s_ServiceName (stream_entry w service)).
        rewrite Hn, lookup_delete_eq. simpl. by rewrite <- Hnil.
Qed.

(** A run keeps the addresses of the members distinct and their map equal
    to the replay of the operations from the map of the start. *)
Lemma run_ops_invariant (service : ServiceConfig) (ops : list (string * nat_Port)) (w : World) :
  Type_ service = "http" ∨ Type_ service = "stream" →
  keyed w →
  NoDup (IP <$> members w service) →
  keyed (run_ops w service ops)
  ∧ NoDup (IP <$> members (run_ops w service ops) service)
  ∧ member_map (members (run_ops w service ops) service)
    = foldl replay_step (member_map (members w service)) ops.
Proof.
  intros Ht. revert w. induction ops as [|op ops IH]; intros w Hk Hnd; [done|].
  unfold run_ops. simpl. fold (run_ops (UpdateService w service op.1 op.2).1 service ops).
  destruct (UpdateService_members w service op Ht Hk) as [Hk' Hm].
  destruct (IH _ Hk') as (Hk'' & Hnd'' & Hmap).
  { rewrite Hm. by apply apply_member_NoDup. }
  split; [done|]. split; [done|].
  rewrite Hmap, Hm. by rewrite apply_member_map.
Qed.

(** C1.  Start from a manager that has just been created and run any
    sequence of [UpdateService] calls for one service of type http or
    stream, each an upsert (IP and port both non-empty) or a remove.  The
    member list of the service then has at most one entry per IP address,
    and read as a map from address to port it equals the replay of the
    sequence in which an upsert assigns the port to the address (a second
    upsert for the same address replaces the port) and a remove deletes the
    address. *)
Theorem registry_replays_as_map (c : Config) (f : os.FS) (service : ServiceConfig)
  (ops : list (string * nat_Port)) :
  Type_ service = "http" ∨ Type_ service = "stream" →
  NoDup (IP <$> members (run_ops (NewManager c f) service ops) service)
  ∧ member_map (members (run_ops (NewManager c f) service ops) service) = replay ops.
Proof.
  intros Ht.
  assert (Hk : keyed (NewManager c f)).
  { split; intros k x; simpl; by rewrite lookup_empty. }
  assert (Hm : members (NewManager c f) service = []).
  { unfold members. simpl. rewrite !lookup_empty. by repeat case_match. }
  destruct (run_ops_invariant service ops (NewManager c f) Ht Hk) as (_ & Hnd & Hmap).
  { rewrite Hm. constructor. }
  split; [done|]. rewrite Hmap, Hm. done.
Qed.

End steps.

(** The run of [scenario.ops] on [api], as an instance of C1. *)
Lemma registry_replays_as_map_witness :
  NoDup (IP <$> members (run_ops (tt := shipped.engine) (fp := shipped.join_slash)
                           (NewManager scenario.declared scenario.disk)
                           scenario.api scenario.ops) scenario.api)
  ∧ member_map (members (run_ops (tt := shipped.engine) (fp := shipped.join_slash)
                           (NewManager scenario.declared scenario.disk)
                           scenario.api scenario.ops) scenario.api)
    = replay scenario.ops.
Proof.
  exact (registry_replays_as_map (tt := shipped.engine) (fp := shipped.join_slash)
           scenario.declared scenario.disk scenario.api scenario.ops
           (or_introl eq_refl)).
Defined.

Example run_of_ops :
  members (run_ops (tt := shipped.engine) (fp := shipped.join_slash)
             (NewManager scenario.declared scenario.disk) scenario.api scenario.ops)
          scenario.api
  = [{| IP := "10.0.0.1"; Port_ := "90/tcp" |}].
Proof. vm_compute. reflexivity. Qed.

End registry_facts.

(* ===================================================================== *)
(** * What an update leaves alone                                         *)
(* ===================================================================== *)

Module frame_facts.
Import config nginx registry registry_facts.

Section frame.
Context {tt : TextTemplate} {ex : Exec} {fp : os.Filepath}.

Lemma http_entry_lookup (w : World) (service : ServiceConfig) (h : HTTPConfig) :
  httpConfigs w !! Name service = Some h → http_entry w service = h.
Proof. intros E. unfold http_entry. by rewrite E. Qed.

Lemma stream_entry_lookup (w : World) (service : ServiceConfig) (s : StreamConfig) :
  streamConfigs w !! Name service = Some s → stream_entry w service = s.
Proof. intros E. unfold stream_entry. by rewrite E. Qed.

(** C9.  When the registry already holds an entry for the service, an
    update (upsert or remove) with any service descriptor of that name, under
    any configuration, leaves an entry that differs from the old one in the
    member list only, or drops the entry because the list has become empty.
    So the http entry's Domain, Path and ProxyConfig and the stream entry's
    ListenPort and SNI fields keep the values of the entry's creation, also
    when the descriptor passed in (from a reloaded configuration) carries
    other values. *)
Theorem existing_entry_keeps_its_fields (w : World) (service : ServiceConfig)
  (ip : string) (port : nat_Port) :
  (∀ h, httpConfigs w !! Name service = Some h →
     match httpConfigs (updateHTTPService w service ip port).1 !! Name service with
     | Some h' =>
         h_ServiceName h' = h_ServiceName h ∧ h_Domain h' = h_Domain h
         ∧ h_Path h' = h_Path h ∧ h_ProxyConfig h' = h_ProxyConfig h
         ∧ h_Upstream h' = apply_member (h_Upstream h) ip port
     | None => apply_member (h_Upstream h) ip port = []
     end)
  ∧ (∀ s, streamConfigs w !! Name service = Some s →
     match streamConfigs (updateStreamService w service ip port).1 !! Name service with
     | Some s' =>
         s_ServiceName s' = s_ServiceName s ∧ s_ListenPort s' = s_ListenPort s
         ∧ s_EnableSNI s' = s_EnableSNI s ∧ s_DomainRoutes s' = s_DomainRoutes s
         ∧ s_StaticUpstreams s' = s_StaticUpstreams s
         ∧ s_Upstream s' = apply_member (s_Upstream s) ip port
     | None => apply_member (s_Upstream s) ip port = []
     end).
Proof.
  split.
  - intros h Eh.
    pose proof (updateHTTPService_registry w service ip port) as (_ & _ & Hh).
    rewrite (http_entry_lookup w service h Eh) in Hh.
    destruct Hh as [Hh|[Hnil Hh]]; rewrite Hh.
    + by rewrite lookup_insert_eq.
    + rewrite lookup_delete. case_decide; [done|]. by rewrite lookup_insert_eq.
  - intros s Es.
    pose proof (updateStreamService_registry w service ip port) as (_ & _ & Hs).
    rewrite (stream_entry_lookup w service s Es) in Hs.
    destruct Hs as [Hs|[Hnil Hs]]; rewrite Hs.
    + by rewrite lookup_insert_eq.
    + rewrite lookup_delete. case_decide; [done|]. by rewrite lookup_insert_eq.
Qed.

End frame.

(** After [my-api] has started, the configuration is reloaded with another
    domain, path and proxy override for [api], and the container comes up
    again on another port: the entry keeps the old domain, path and (absent)
    override. *)
Lemma existing_entry_keeps_its_fields_witness :
  match httpConfigs
          (updateHTTPService (tt := shipped.engine) (fp := shipped.join_slash)
             (with_cfg scenario.started scenario.declared_v2) scenario.api_v2
             "192.168.31.100" "34000/tcp").1 !! "api" with
  | Some h' =>
      h_ServiceName h' = "api" ∧ h_Domain h' = "api.example.com"
      ∧ h_Path h' = "/" ∧ h_ProxyConfig h' = None
      ∧ h_Upstream h' = [{| IP := "192.168.31.100"; Port_ := "34000/tcp" |}]
  | None => [{| IP := "192.168.31.100"; Port_ := "34000/tcp" |}] = []
  end.
Proof.
  apply (proj1 (existing_entry_keeps_its_fields (tt := shipped.engine) (fp := shipped.join_slash)
                  (with_cfg scenario.started scenario.declared_v2) scenario.api_v2
                  "192.168.31.100" "34000/tcp")
           {| h_ServiceName := "api"; h_Domain := "api.example.com"; h_Path := "/";
              h_Upstream := [{| IP := "192.168.31.100"; Port_ := "33000/tcp" |}];
              h_ProxyConfig := None |}).
  vm_compute. reflexivity.
Defined.

End frame_facts.

(* ===================================================================== *)
(** * Materialization                                                     *)
(* ===================================================================== *)

Module materialize_facts.
Import config nginx registry.

Section deletion.
Context {tt : TextTemplate} {ex : Exec} {fp : os.Filepath}.

Lemma Remove_allowed (f : os.FS) (path : string) :
  path ∉ os.denied f →
  os.files (os.Remove f path).1 !! path = None
  ∧ os.denied (os.Remove f path).1 = os.denied f
  ∧ ((os.Remove f path).2 = None ∨ (os.Remove f path).2 = Some os.ErrNotExist).
Proof.
  intros Hd. unfold os.Remove. rewrite bool_decide_eq_false_2; [|done].
  destruct (os.files f !! path) eqn:E; simpl.
  - rewrite lookup_delete_eq. auto.
  - auto.
Qed.

Lemma Remove_absent (f : os.FS) (path : string) :
  path ∉ os.denied f → os.files f !! path = None →
  os.Remove f path = (f, Some os.ErrNotExist).
Proof.
  intros Hd Hf. unfold os.Remove. rewrite bool_decide_eq_false_2; [|done]. by rewrite Hf.
Qed.

Lemma deleteHTTPConfig_allowed (w : World) (name : string) :
  conf_path (NginxConfigDir (Global (cfg w))) name ∉ os.denied (fs w) →
  (deleteHTTPConfig w name).2 = None
  ∧ os.files (fs (deleteHTTPConfig w name).1)
      !! conf_path (NginxConfigDir (Global (cfg w))) name = None
  ∧ httpConfigs (deleteHTTPConfig w name).1 !! name = None
  ∧ deleteHTTPConfig (deleteHTTPConfig w name).1 name = ((deleteHTTPConfig w name).1, None).
Proof.
  intros Hd.
  destruct (Remove_allowed _ _ Hd) as (Hf & Hden & Herr).
  destruct (os.Remove (fs w) _) as [fs' err] eqn:ER. simpl in Hf, Hden, Herr.
  assert (Hdel : deleteHTTPConfig w name
                 = (with_httpConfigs (with_fs w fs') (delete name (httpConfigs w)), None)).
  { unfold deleteHTTPConfig. rewrite ER. by destruct Herr as [-> | ->]. }
  rewrite Hdel. simpl.
  split; [done|]. split; [done|]. split; [apply lookup_delete_eq|].
  unfold deleteHTTPConfig. simpl.
  rewrite Remove_absent; [|by rewrite Hden|done]. simpl.
  by rewrite delete_delete_eq.
Qed.

Lemma deleteStreamConfig_allowed (w : World) (name : string) :
  conf_path (StreamConfigDir (Global (cfg w))) name ∉ os.denied (fs w) →
  (deleteStreamConfig w name).2 = None
  ∧ os.files (fs (deleteStreamConfig w name).1)
      !! conf_path (StreamConfigDir (Global (cfg w))) name = None
  ∧ streamConfigs (deleteStreamConfig w name).1 !! name = None
  ∧ deleteStreamConfig (deleteStreamConfig w name).1 name = ((deleteStreamConfig w name).1, None).
Proof.
  intros Hd.
  destruct (Remove_allowed _ _ Hd) as (Hf & Hden & Herr).
  destruct (os.Remove (fs w) _) as [fs' err] eqn:ER. simpl in Hf, Hden, Herr.
  assert (Hdel : deleteStreamConfig w name
                 = (with_streamConfigs (with_fs w fs') (delete name (streamConfigs w)), None)).
  { unfold deleteStreamConfig. rewrite ER. by destruct Herr as [-> | ->]. }
  rewrite Hdel. simpl.
  split; [done|]. split; [done|]. split; [apply lookup_delete_eq|].
  unfold deleteStreamConfig. simpl.
  rewrite Remove_absent; [|by rewrite Hden|done]. simpl.
  by rewrite delete_delete_eq.
Qed.

Lemma WriteFile_allowed (f : os.FS) (path data : string) :
  path ∉ os.denied f →
  os.WriteFile f path data
  = (os.with_files f (<[path := {| os.content := data; os.modTime := os.now f |}]> (os.files f)),
     None).
Proof. intros Hd. unfold os.WriteFile. by rewrite bool_decide_eq_false_2. Qed.

(** C7, as the code has it.  For an http entry, and for a stream entry
    that does not enable SNI, with no member: when removing the file is not
    refused for a reason other than its absence, materialization returns no
    error, the artifact is absent afterwards, the entry is out of the
    registry, and materializing again changes nothing and returns no error
    (the file is absent by then).  A stream entry that enables SNI and has no
    member is written instead, and stays in the registry. *)
Theorem empty_member_set_materializes (w : World) :
  (∀ h, h_Upstream h = [] →
     conf_path (NginxConfigDir (Global (cfg w))) (h_ServiceName h) ∉ os.denied (fs w) →
     (generateHTTPConfig w h).2 = None
     ∧ os.files (fs (generateHTTPConfig w h).1)
         !! conf_path (NginxConfigDir (Global (cfg w))) (h_ServiceName h) = None
     ∧ httpConfigs (generateHTTPConfig w h).1 !! h_ServiceName h = None
     ∧ generateHTTPConfig (generateHTTPConfig w h).1 h = ((generateHTTPConfig w h).1, None))
  ∧ (∀ s, s_Upstream s = [] → s_EnableSNI s = false →
     conf_path (StreamConfigDir (Global (cfg w))) (s_ServiceName s) ∉ os.denied (fs w) →
     (generateStreamConfig w s).2 = None
     ∧ os.files (fs (generateStreamConfig w s).1)
         !! conf_path (StreamConfigDir (Global (cfg w))) (s_ServiceName s) = None
     ∧ streamConfigs (generateStreamConfig w s).1 !! s_ServiceName s = None
     ∧ generateStreamConfig (generateStreamConfig w s).1 s
       = ((generateStreamConfig w s).1, None))
  ∧ (∀ s, s_Upstream s = [] → s_EnableSNI s = true →
     conf_path (StreamConfigDir (Global (cfg w))) (s_ServiceName s) ∉ os.denied (fs w) →
     (generateStreamConfig w s).2 = None
     ∧ os.content <$> (os.files (fs (generateStreamConfig w s).1)
                         !! conf_path (StreamConfigDir (Global (cfg w))) (s_ServiceName s))
       = Some (buildStreamConfigContent w s).2
     ∧ streamConfigs (generateStreamConfig w s).1 = streamConfigs w).
Proof.
  split; [|split].
  - intros h Hu Hd. unfold generateHTTPConfig. rewrite Hu. simpl.
    by apply deleteHTTPConfig_allowed.
  - intros s Hu Hsni Hd. unfold generateStreamConfig. rewrite Hu, Hsni. simpl.
    by apply deleteStreamConfig_allowed.
  - intros s Hu Hsni Hd. unfold generateStreamConfig, conf_path in *. rewrite Hu, Hsni. simpl.
    pose proof (registry_facts.buildStreamConfigContent_frame w s) as (Hc & _ & Hs & Hf & _).
    destruct (buildStreamConfigContent w s) as [w1 text]. simpl in *.
    rewrite Hc, Hf. rewrite WriteFile_allowed; [|done]. simpl.
    split; [done|]. split; [|done]. by rewrite lookup_insert_eq.
Qed.

End deletion.

(** The artifact of [api] is on disk and the entry has lost its last
    member: the file and the entry go, and a second materialization finds
    nothing to do. *)
Lemma empty_member_set_materializes_witness :
  let w := NewManager scenario.declared scenario.disk_without_template in
  let h := {| h_ServiceName := "api"; h_Domain := "api.example.com"; h_Path := "/";
              h_Upstream := []; h_ProxyConfig := None |} in
  let g := generateHTTPConfig (tt := shipped.engine) (fp := shipped.join_slash) in
  os.files (fs w) !! "/etc/nginx/conf.d/api.conf" ≠ None
  ∧ (g w h).2 = None
  ∧ os.files (fs (g w h).1) !! "/etc/nginx/conf.d/api.conf" = None
  ∧ httpConfigs (g w h).1 !! "api" = None
  ∧ g (g w h).1 h = ((g w h).1, None).
Proof.
  split; [by vm_compute|].
  apply (proj1 (empty_member_set_materializes (tt := shipped.engine) (fp := shipped.join_slash)
                  (NewManager scenario.declared scenario.disk_without_template))
           {| h_ServiceName := "api"; h_Domain := "api.example.com"; h_Path := "/";
              h_Upstream := []; h_ProxyConfig := None |} eq_refl).
  simpl. apply not_elem_of_empty.
Defined.

(** C7 as stated fails on a stream service with SNI routing: with no member
    its artifact is written, not deleted, and its entry stays. *)
Lemma sni_service_without_members_is_written :
  let w := NewManager scenario.declared scenario.disk in
  let r := generateStreamConfig (tt := scenario.fixed_engine) (fp := shipped.join_slash)
             w scenario.tls_entry in
  s_Upstream scenario.tls_entry = []
  ∧ r.2 = None
  ∧ os.content <$> (os.files (fs r.1) !! "/etc/nginx/stream.d/tls.conf") = Some "# stream"
  ∧ streamConfigs
      (updateStreamService (tt := scenario.fixed_engine) (fp := shipped.join_slash)
         w scenario.tls "" "").1 !! "tls" = Some scenario.tls_entry.
Proof. vm_compute. repeat split. Qed.

End materialize_facts.

(* ===================================================================== *)
(** * Reloading the declared configuration                                *)
(* ===================================================================== *)

Module reload_facts.
Import config nginx watcher.

Section reload.
Context {ym : Yaml}.

(** The three ways [Load] fails. *)
Lemma Load_unreadable (f : os.FS) (filename : string) (e : os.oserror) :
  os.ReadFile f filename = Err e → Load f filename = Err (ErrReadConfig e).
Proof. intros E. unfold Load. by rewrite E. Qed.

Lemma Load_malformed (f : os.FS) (filename data : string) :
  os.ReadFile f filename = Ok data → yaml_Unmarshal data = None →
  Load f filename = Err ErrParseConfig.
Proof. intros E1 E2. unfold Load. by rewrite E1, E2. Qed.

Lemma Load_invalid (f : os.FS) (filename data : string) (g : GlobalConfig)
  (svcs : list ServiceConfig) :
  os.ReadFile f filename = Ok data → yaml_Unmarshal data = Some (g, svcs) →
  String.eqb (NginxConfigDir g) "" || String.eqb (StreamConfigDir g) ""
  || String.eqb (NginxReloadCmd g) "" = true →
  ∃ e, Load f filename = Err (ErrValidateConfig e).
Proof.
  intros E1 E2 Hbad. unfold Load. rewrite E1, E2. unfold Validate. simpl.
  destruct (String.eqb (NginxConfigDir g) ""); [by eexists|].
  destruct (String.eqb (StreamConfigDir g) ""); [by eexists|].
  destruct (String.eqb (NginxReloadCmd g) ""); [by eexists|done].
Qed.

(** C6.  [Config.Reload] either returns the error of [Load] and leaves the
    configuration object exactly as it was, or returns no error and the
    object is the whole configuration that [Load] produced.  One tick of the
    poller does the same to the shared object: after the tick it is the old
    configuration (nothing had changed, or loading or validating failed) or
    the newly loaded one as a whole, and the tick asks for a rescan only in
    the second case; the registry, the files and the commands run are not
    touched. *)
Theorem reload_is_all_or_nothing (w : World) :
  match Load (fs w) (filePath (cfg w)) with
  | Err e =>
      config.Reload (fs w) (cfg w) = (cfg w, Some e)
      ∧ cfg (watchConfigFile_tick w).1 = cfg w
      ∧ (watchConfigFile_tick w).2 = false
  | Ok newConfig =>
      config.Reload (fs w) (cfg w) = (newConfig, None)
      ∧ cfg (watchConfigFile_tick w).1
        = (if HasChanged (fs w) (cfg w) then newConfig else cfg w)
      ∧ (watchConfigFile_tick w).2 = HasChanged (fs w) (cfg w)
  end
  ∧ httpConfigs (watchConfigFile_tick w).1 = httpConfigs w
  ∧ streamConfigs (watchConfigFile_tick w).1 = streamConfigs w
  ∧ fs (watchConfigFile_tick w).1 = fs w
  ∧ cmds (watchConfigFile_tick w).1 = cmds w.
Proof.
  unfold watchConfigFile_tick, config.Reload. simpl.
  destruct (Load (fs w) (filePath (cfg w))) as [newConfig|e];
    destruct (HasChanged (fs w) (cfg w)); simpl; by repeat split.
Qed.

End reload.

(** A malformed edit is rejected and the old configuration stays; the next
    valid edit replaces it as a whole. *)
Example malformed_edit_is_rejected :
  let w := NewManager scenario.declared (scenario.disk_edited "services: [") in
  cfg (scenario.tick w).1 = scenario.declared ∧ (scenario.tick w).2 = false.
Proof. by vm_compute. Qed.

Example valid_edit_is_adopted :
  let w := NewManager scenario.declared (scenario.disk_edited "v2") in
  cfg (scenario.tick w).1 = scenario.declared_v2 ∧ (scenario.tick w).2 = true.
Proof. by vm_compute. Qed.

End reload_facts.

(* ===================================================================== *)
(** * Address resolution on the default bridge                            *)
(* ===================================================================== *)

Module resolver_facts.
Import config nginx watcher.

Lemma append_cons_nonempty (s t : string) (c : Ascii.ascii) : s +:+ String c t ≠ "".
Proof. by destruct s. Qed.

Lemma port_of_nonempty (n : Z) (proto : string) : port_of n proto ≠ "".
Proof. unfold port_of. apply append_cons_nonempty. Qed.

(** [getContainerPort] never returns the empty port, whatever the
    container looks like. *)
Lemma getContainerPort_nonempty (container : ContainerJSON) (service : ServiceConfig) :
  getContainerPort container service ≠ "".
Proof.
  unfold getContainerPort.
  destruct (has_network container "host"); [apply port_of_nonempty|].
  destruct (has_network container "bridge").
  - unfold bridge_block.
    destruct (first_binding container (port_of (target_port service) "tcp"));
      [apply append_cons_nonempty|].
    destruct (first_binding container (port_of (target_port service) "udp"));
      [apply append_cons_nonempty|].
    repeat case_bool_decide; apply port_of_nonempty.
  - repeat case_bool_decide; apply port_of_nonempty.
Qed.

Section resolution.
Context {tt : TextTemplate} {ex : Exec} {fp : os.Filepath}.

(** X26.  For a container on the default bridge (and
    not on the host network) the port is the first host port bound to the
    declared target port as TCP, else the first bound to it as UDP; when
    neither binding exists resolution does not fail: it answers the declared
    target port itself (as UDP when the port table has only that key, as TCP
    otherwise).  The answer is never empty, so the caller's check of the port
    never skips: with an address, the registry is updated with that port. *)
Theorem bridge_port_falls_back (w : World) (container : ContainerJSON)
  (service : ServiceConfig) :
  has_network container "bridge" = true →
  has_network container "host" = false →
  getContainerPort container service
  = match first_binding container (port_of (target_port service) "tcp") with
    | Some hostPort => hostPort +:+ "/tcp"
    | None =>
        match first_binding container (port_of (target_port service) "udp") with
        | Some hostPort => hostPort +:+ "/udp"
        | None =>
            if bool_decide (is_Some (Ports container !! port_of (target_port service) "tcp"))
            then port_of (target_port service) "tcp"
            else if bool_decide (is_Some (Ports container !! port_of (target_port service) "udp"))
            then port_of (target_port service) "udp"
            else port_of (target_port service) "tcp"
        end
    end
  ∧ getContainerPort container service ≠ ""
  ∧ updateNginxConfig w service (Some container)
    = if String.eqb (getContainerIP w container) ""
      then log_Printf w (LogNoContainerIP (Name service))
      else update_and_reload w service (getContainerIP w container)
             (getContainerPort container service).
Proof.
  intros Hb Hh. split; [|split].
  - unfold getContainerPort, bridge_block. rewrite Hb, Hh.
    destruct (first_binding container (port_of (target_port service) "tcp")); [done|].
    by destruct (first_binding container (port_of (target_port service) "udp")).
  - apply getContainerPort_nonempty.
  - unfold updateNginxConfig.
    destruct (String.eqb (getContainerIP w container) ""); [done|].
    destruct (String.eqb (getContainerPort container service) "") eqn:E; [|done].
    apply String.eqb_eq in E. by apply getContainerPort_nonempty in E.
Qed.

End resolution.

(** The container of the scenario meets the two hypotheses, so its port
    is resolved as the theorem says (to 33000/tcp, the host port bound to
    9000/tcp). *)
Lemma bridge_port_falls_back_witness :
  has_network scenario.my_api "bridge" = true
  ∧ has_network scenario.my_api "host" = false
  ∧ getContainerPort scenario.my_api scenario.api ≠ "".
Proof.
  split; [reflexivity|]. split; [reflexivity|].
  exact (proj1 (proj2 (bridge_port_falls_back (tt := shipped.engine) (ex := shipped.exec_ok)
                         (fp := shipped.join_slash) scenario.boot scenario.my_api scenario.api
                         eq_refl eq_refl))).
Defined.

Example published_port_is_resolved :
  getContainerPort scenario.my_api scenario.api = "33000/tcp".
Proof. vm_compute. reflexivity. Qed.

(** C4, at an input where the code departs from it.  The container of the
    service api is on the bridge and publishes nothing.  The claim, and the
    code's own comments (the bridge address is the host's, to be used with
    the host port mapping; the container's own port is for the other network
    modes), have resolution fail and the caller skip.  The code answers the
    declared port 9000/tcp, and the start event registers the host address
    with that port, on which the host listens for nothing.  No container
    makes [getContainerPort] answer the empty port, so the caller's check of
    the port, which would skip the update, is never taken. *)
Lemma unpublished_port_is_substituted :
  has_network scenario.my_api_unpublished "bridge" = true
  ∧ Ports scenario.my_api_unpublished !! "9000/tcp" = None
  ∧ Ports scenario.my_api_unpublished !! "9000/udp" = None
  ∧ getContainerPort scenario.my_api_unpublished scenario.api = "9000/tcp"
  ∧ registry.members (scenario.handle scenario.my_api_unpublished scenario.boot scenario.start_c1)
      scenario.api
    = [{| IP := "192.168.31.100"; Port_ := "9000/tcp" |}]
  ∧ ∀ (container : ContainerJSON) (service : ServiceConfig),
      getContainerPort container service ≠ "".
Proof.
  split; [by vm_compute|]. split; [by vm_compute|]. split; [by vm_compute|].
  split; [by vm_compute|]. split; [by vm_compute|].
  apply getContainerPort_nonempty.
Qed.

End resolver_facts.

(* ===================================================================== *)
(** * The shipped http template                                           *)
(* ===================================================================== *)

Module template_facts.
Import nginx shipped.

Lemma append_assoc (a b c : string) : (a +:+ b) +:+ c = a +:+ b +:+ c.
Proof.
  induction a as [|x a IH]; [done|].
  change (String x ((a +:+ b) +:+ c) = String x (a +:+ b +:+ c)). by rewrite IH.
Qed.

Lemma occurs_after (needle s text : string) : occurs needle text → occurs needle (s +:+ text).
Proof.
  intros (pre & post & ->). exists (s +:+ pre), post. by rewrite append_assoc.
Qed.

Lemma occurs_before (needle text s : string) : occurs needle text → occurs needle (text +:+ s).
Proof.
  intros (pre & post & ->). exists pre, (post +:+ s). by rewrite !append_assoc.
Qed.

Lemma occurs_prefix (a b c rest : string) :
  occurs (a +:+ b +:+ c) (a +:+ b +:+ c +:+ rest).
Proof. exists "", rest. change ("" +:+ ?x) with x. by rewrite !append_assoc. Qed.

(** X25.  Whatever the data, the text rendered from conf/http.conf.tpl
    names the upstream block, and the target of [proxy_pass], by the service
    name. *)
Lemma http_conf_tpl_names_the_service (d : HTTPTemplateData) :
  occurs ("upstream " +:+ td_ServiceName d +:+ " {") (http_conf_tpl d)
  ∧ occurs ("proxy_pass http://" +:+ td_ServiceName d +:+ "/;") (http_conf_tpl d).
Proof.
  split.
  - unfold http_conf_tpl. apply occurs_before. unfold upstream_block.
    do 3 apply occurs_after. apply occurs_prefix.
  - unfold http_conf_tpl. do 2 apply occurs_after. apply occurs_before.
    unfold location_block. do 9 apply occurs_after.
    change ("        proxy_pass http://" +:+ td_ServiceName d +:+ "/;" +:+ ?rest)
      with ("        " +:+ "proxy_pass http://" +:+ td_ServiceName d +:+ "/;" +:+ rest).
    apply occurs_after. apply occurs_prefix.
Qed.

End template_facts.

(* ===================================================================== *)
(** * The event handlers                                                  *)
(* ===================================================================== *)

Module handler_facts.
Import config nginx watcher registry registry_facts.

Lemma removeUpstreamServer_absent (l : list UpstreamServer) (ip : string) :
  ip ∉ IP <$> l → removeUpstreamServer l ip = l.
Proof.
  induction l as [|e rest IH]; cbn [removeUpstreamServer]; [done|].
  rewrite fmap_cons. intros Hnot. apply not_elem_of_cons in Hnot as [Hne Hnot].
  destruct (String.eqb (IP e) ip) eqn:E.
  - apply String.eqb_eq in E. by subst.
  - by rewrite IH.
Qed.

Section handlers.
Context {tt : TextTemplate} {ex : Exec} {fp : os.Filepath}.

(** The manager runs no command and does not touch the configuration. *)
Lemma generateHTTPConfig_cmds (w : World) (h : HTTPConfig) :
  cmds (generateHTTPConfig w h).1 = cmds w.
Proof.
  unfold generateHTTPConfig.
  destruct (length (h_Upstream h) =? 0)%nat.
  - unfold deleteHTTPConfig.
    destruct (os.Remove _ _) as [fs' [e|]]; [destruct e|]; done.
  - pose proof (buildHTTPConfigContent_frame w h) as (_ & _ & _ & _ & Hc).
    destruct (buildHTTPConfigContent w h) as [w1 text]. simpl in *.
    by destruct (os.WriteFile _ _ _) as [fs' [e|]].
Qed.

Lemma generateStreamConfig_cmds (w : World) (s : StreamConfig) :
  cmds (generateStreamConfig w s).1 = cmds w.
Proof.
  unfold generateStreamConfig.
  destruct ((length (s_Upstream s) =? 0)%nat && negb (s_EnableSNI s)).
  - unfold deleteStreamConfig.
    destruct (os.Remove _ _) as [fs' [e|]]; [destruct e|]; done.
  - pose proof (buildStreamConfigContent_frame w s) as (_ & _ & _ & _ & Hc).
    destruct (buildStreamConfigContent w s) as [w1 text]. simpl in *.
    by destruct (os.WriteFile _ _ _) as [fs' [e|]].
Qed.

Lemma UpdateService_frame (w : World) (service : ServiceConfig) (ip : string) (port : nat_Port) :
  cmds (UpdateService w service ip port).1 = cmds w
  ∧ cfg (UpdateService w service ip port).1 = cfg w.
Proof.
  unfold UpdateService.
  destruct (String.eqb (Type_ service) "http").
  - split.
    + unfold updateHTTPService. by rewrite generateHTTPConfig_cmds.
    + by destruct (updateHTTPService_registry w service ip port) as (Hc & _).
  - destruct (String.eqb (Type_ service) "stream"); [|done]. split.
    + unfold updateStreamService. by rewrite generateStreamConfig_cmds.
    + by destruct (updateStreamService_registry w service ip port) as (Hc & _).
Qed.

(** The commands run by [update_and_reload]: the reload command, with its
    fields, exactly when [UpdateService] returns no error and the command has
    a field. *)
Lemma update_and_reload_cmds (w : World) (service : ServiceConfig) (ip : string)
  (port : nat_Port) :
  cmds (update_and_reload w service ip port)
  = match (UpdateService w service ip port).2 with
    | Some _ => cmds w
    | None =>
        match strings_Fields (NginxReloadCmd (Global (cfg w))) with
        | [] => cmds w
        | parts => parts :: cmds w
        end
    end.
Proof.
  unfold update_and_reload.
  destruct (UpdateService_frame w service ip port) as [Hcmds Hcfg].
  destruct (UpdateService w service ip port) as [w1 [err|]]; simpl in *; [done|].
  unfold nginx.Reload. simpl. rewrite Hcfg.
  destruct (strings_Fields (NginxReloadCmd (Global (cfg w)))) as [|p ps]; simpl; [done|].
  destruct (CombinedOutput_ok (p :: ps)); simpl; by rewrite Hcmds.
Qed.

(** C8, as the code has it.  A stop or die event whose container is found,
    matches a service and passes validation runs the reload command exactly
    when [UpdateService] (called with no address and no port) returns no
    error and the command has at least one field; whether a member was
    removed plays no part. *)
Theorem stop_reloads_when_update_succeeds (ContainerInspect : string → option ContainerJSON)
  (w : World) (event : Message) (container : ContainerJSON) (service : ServiceConfig) :
  Action event = "stop" ∨ Action event = "die" →
  ContainerInspect (ActorID event) = Some container →
  GetServiceByContainerName (cfg w) (c_Name container) = Some service →
  ValidateService (cfg w) service = None →
  cmds (handleEvent ContainerInspect w event)
  = match (UpdateService
             (log_Printf (log_Printf w (LogEvent (Action event) (ActorID event)))
                (LogHandleStop (c_Name container)))
             service "" "").2 with
    | Some _ => cmds w
    | None =>
        match strings_Fields (NginxReloadCmd (Global (cfg w))) with
        | [] => cmds w
        | parts => parts :: cmds w
        end
    end.
Proof.
  intros Ha Hi Hs Hv. unfold handleEvent.
  assert (Hstart : String.eqb (Action event) "start" = false).
  { by destruct Ha as [-> | ->]. }
  assert (Hstop : String.eqb (Action event) "stop" || String.eqb (Action event) "die" = true).
  { by destruct Ha as [-> | ->]. }
  rewrite Hstart, Hstop. unfold handleContainerStop. rewrite Hi. simpl.
  rewrite Hs, Hv. unfold updateNginxConfig.
  by rewrite update_and_reload_cmds.
Qed.

(** X23.  A stop never takes a member away: the handler asks for the
    removal of the empty address, and no member has it. *)
Lemma stop_update_keeps_members (w : World) (service : ServiceConfig) :
  Type_ service = "http" ∨ Type_ service = "stream" →
  keyed w →
  "" ∉ IP <$> members w service →
  members (UpdateService w service "" "").1 service = members w service.
Proof.
  intros Ht Hk Hne.
  destruct (UpdateService_members w service ("", "") Ht Hk) as [_ Hm].
  simpl in Hm. rewrite Hm. unfold apply_member. simpl.
  by apply removeUpstreamServer_absent.
Qed.

(** X24.  A failed rendering ends in a write of the empty text. *)
Lemma render_failure_writes_empty (w : World) (h : HTTPConfig) :
  h_Upstream h ≠ [] →
  (buildHTTPConfigContent w h).2 = "" →
  conf_path (NginxConfigDir (Global (cfg w))) (h_ServiceName h) ∉ os.denied (fs w) →
  (generateHTTPConfig w h).2 = None
  ∧ os.content <$> (os.files (fs (generateHTTPConfig w h).1)
                      !! conf_path (NginxConfigDir (Global (cfg w))) (h_ServiceName h))
    = Some "".
Proof.
  intros Hu Hb Hd. unfold generateHTTPConfig, conf_path in *.
  destruct (h_Upstream h) as [|u us]; [done|]. simpl.
  pose proof (buildHTTPConfigContent_frame w h) as (Hc & _ & _ & Hf & _).
  destruct (buildHTTPConfigContent w h) as [w1 text]. simpl in *. subst text.
  rewrite Hc, Hf. rewrite materialize_facts.WriteFile_allowed; [|done]. simpl.
  split; [done|]. by rewrite lookup_insert_eq.
Qed.

(** Nothing the manager does depends on the declared [upstream_name]. *)
Lemma UpdateService_ignores_UpstreamName (w : World) (service : ServiceConfig)
  (u ip : string) (port : nat_Port) :
  UpdateService w (scenario.with_UpstreamName service u) ip port
  = UpdateService w service ip port.
Proof. reflexivity. Qed.

End handlers.

(** A stop event for [my-api] in a fresh process meets the hypotheses. *)
Lemma stop_reloads_when_update_succeeds_witness :
  cmds (handleEvent (tt := shipped.engine) (ex := shipped.exec_ok) (fp := shipped.join_slash)
          (scenario.inspect scenario.my_api_stopped) scenario.boot scenario.stop_c1)
  = match (UpdateService (tt := shipped.engine) (fp := shipped.join_slash)
             (log_Printf (log_Printf scenario.boot (LogEvent "stop" "c1"))
                (LogHandleStop "/my-api"))
             scenario.api "" "").2 with
    | Some _ => cmds scenario.boot
    | None =>
        match strings_Fields (NginxReloadCmd (Global (cfg scenario.boot))) with
        | [] => cmds scenario.boot
        | parts => parts :: cmds scenario.boot
        end
    end.
Proof.
  apply (stop_reloads_when_update_succeeds (tt := shipped.engine) (ex := shipped.exec_ok)
           (fp := shipped.join_slash) (scenario.inspect scenario.my_api_stopped)
           scenario.boot scenario.stop_c1 scenario.my_api_stopped scenario.api).
  - left. reflexivity.
  - reflexivity.
  - reflexivity.
  - reflexivity.
Defined.

(** C8 as stated fails: the stop event after the start removes nothing
    (both maps of the registry are as before), and the reload command runs a
    second time. *)
Lemma stop_reloads_without_removal :
  let before := scenario.started in
  let after := scenario.handle scenario.my_api_stopped before scenario.stop_c1 in
  members before scenario.api = [{| IP := "192.168.31.100"; Port_ := "33000/tcp" |}]
  ∧ httpConfigs after = httpConfigs before
  ∧ streamConfigs after = streamConfigs before
  ∧ cmds before = [["docker"; "exec"; "nginx-ui"; "nginx"; "-s"; "reload"]]
  ∧ cmds after = [["docker"; "exec"; "nginx-ui"; "nginx"; "-s"; "reload"];
                  ["docker"; "exec"; "nginx-ui"; "nginx"; "-s"; "reload"]].
Proof. vm_compute. repeat split. Qed.

(** C2 on the spec's scenario: [my-api] starts on the bridge with 9000
    published as 33000, then stops (and then dies).  The member that the
    start added is still there after the stop, and so is the artifact: the
    handler calls [UpdateService] with the empty address, which matches no
    member. *)
Theorem stop_keeps_member_and_artifact :
  let after_stop := scenario.handle scenario.my_api_stopped scenario.started scenario.stop_c1 in
  let after_die := scenario.handle scenario.my_api_stopped after_stop scenario.die_c1 in
  members scenario.started scenario.api = [{| IP := "192.168.31.100"; Port_ := "33000/tcp" |}]
  ∧ members after_stop scenario.api = [{| IP := "192.168.31.100"; Port_ := "33000/tcp" |}]
  ∧ members after_die scenario.api = [{| IP := "192.168.31.100"; Port_ := "33000/tcp" |}]
  ∧ os.files (fs after_stop) !! "/etc/nginx/conf.d/api.conf"
    = os.files (fs scenario.started) !! "/etc/nginx/conf.d/api.conf"
  ∧ os.files (fs after_die) !! "/etc/nginx/conf.d/api.conf" ≠ None.
Proof. vm_compute. repeat split. discriminate. Qed.

(** C3 at a failing input: the artifact of [api] is on disk, the template
    file is gone, and a container of [api] comes up.  Rendering fails and is
    logged, the call returns no error, and the artifact now holds the empty
    text. *)
Theorem render_failure_overwrites_artifact :
  let w := NewManager scenario.declared scenario.disk_without_template in
  let r := scenario.update w scenario.api "10.0.0.1" "80/tcp" in
  os.content <$> (os.files (fs w) !! "/etc/nginx/conf.d/api.conf")
  = Some "upstream api { server 10.0.0.1:80; }"
  ∧ r.2 = None
  ∧ logs r.1 = [LogLoadHTTPTemplate (ErrTemplateMissing "conf/http.conf.tpl")]
  ∧ os.content <$> (os.files (fs r.1) !! "/etc/nginx/conf.d/api.conf") = Some "".
Proof. vm_compute. repeat split. Qed.

(** C5 at a failing input: [api] declares the upstream name [api_backend];
    the artifact written at its start names the upstream block and the target
    of [proxy_pass] after the service, and the declared upstream name occurs
    nowhere in it. *)
Theorem artifact_names_the_service :
  UpstreamName scenario.api = "api_backend"
  ∧ match os.files (fs scenario.started) !! "/etc/nginx/conf.d/api.conf" with
    | Some file =>
        shipped.strings_Contains (os.content file) "upstream api {" = true
        ∧ shipped.strings_Contains (os.content file) "proxy_pass http://api/;" = true
        ∧ shipped.strings_Contains (os.content file) "proxy_pass http://api_backend/" = false
        ∧ shipped.strings_Contains (os.content file) "api_backend" = false
    | None => False
    end.
Proof. vm_compute. repeat split. Qed.

End handler_facts.

(* ===================================================================== *)
(** * More on the declared configuration                                  *)
(* ===================================================================== *)

Module config_facts.
Import config nginx watcher.

(** X1.  [ValidateService] accepts a service exactly when its name,
    container name and upstream name are not empty, its type is http or
    stream, an http service has a domain and a port, and a stream service has
    a listen port and a container port; it never looks at the configuration
    it is called on. *)
Theorem ValidateService_accepts (c : Config) (service : ServiceConfig) :
  ValidateService c service = None ↔
  Name service ≠ ""
  ∧ (Type_ service = "http" ∨ Type_ service = "stream")
  ∧ ContainerName service ≠ ""
  ∧ UpstreamName service ≠ ""
  ∧ (Type_ service = "http" → Domain service ≠ "" ∧ Port service ≠ 0)
  ∧ (Type_ service = "stream" → ListenPort service ≠ 0 ∧ ContainerPort service ≠ 0).
Proof.
  unfold ValidateService. split.
  - intros Hv.
    destruct (String.eqb (Name service) "") eqn:En; [done|].
    destruct (String.eqb (Type_ service) "http") eqn:Eh;
      destruct (String.eqb (Type_ service) "stream") eqn:Es; simpl in Hv; [| | |done].
    + apply String.eqb_eq in Eh, Es. congruence.
    + destruct (String.eqb (ContainerName service) "") eqn:Ec; [done|].
      destruct (String.eqb (UpstreamName service) "") eqn:Eu; [done|].
      destruct (String.eqb (Domain service) "") eqn:Ed; [done|].
      destruct (Port service =? 0) eqn:Ep; [done|].
      apply String.eqb_neq in En, Es, Ec, Eu, Ed. apply String.eqb_eq in Eh.
      apply Z.eqb_neq in Ep. repeat split; auto. all: intros; congruence.
    + destruct (String.eqb (ContainerName service) "") eqn:Ec; [done|].
      destruct (String.eqb (UpstreamName service) "") eqn:Eu; [done|].
      destruct (ListenPort service =? 0) eqn:El; [done|].
      destruct (ContainerPort service =? 0) eqn:Ep; [done|].
      apply String.eqb_neq in En, Eh, Ec, Eu. apply String.eqb_eq in Es.
      apply Z.eqb_neq in El, Ep. repeat split; auto. all: intros; congruence.
  - intros (Hn & Ht & Hc & Hu & Hh & Hs).
    apply String.eqb_neq in Hn, Hc, Hu. rewrite Hn.
    destruct Ht as [Ht|Ht]; rewrite Ht; simpl; rewrite Hc, Hu.
    + destruct (Hh Ht) as [Hd Hp]. apply String.eqb_neq in Hd. apply Z.eqb_neq in Hp.
      by rewrite Hd, Hp.
    + destruct (Hs Ht) as [Hl Hp]. apply Z.eqb_neq in Hl, Hp. by rewrite Hl, Hp.
Qed.

Section loading.
Context {ym : Yaml}.

Lemma Load_Ok (f : os.FS) (filename : string) (c : Config) :
  Load f filename = Ok c →
  filePath c = filename
  ∧ Validate c = None
  ∧ lastMod c = match os.Stat f filename with Ok t => t | Err _ => 0 end.
Proof.
  unfold Load. destruct (os.ReadFile f filename) as [data|e]; [|done].
  destruct (yaml_Unmarshal data) as [[g svcs]|]; [|done].
  destruct (Validate _) eqn:Ev; [done|]. by intros [= <-].
Qed.

Lemma Load_unchanged (f : os.FS) (filename : string) (c : Config) :
  Load f filename = Ok c → HasChanged f c = false.
Proof.
  intros HL. destruct (Load_Ok f filename c HL) as (Hp & _ & Hm).
  unfold HasChanged. rewrite Hp, Hm.
  destruct (os.Stat f filename); [apply Z.ltb_irrefl|done].
Qed.

(** X2.  A configuration that [Load] returns remembers the path it was read
    from, has non-empty http and stream directories and a non-empty reload
    command, and is up to date: [HasChanged] answers false for it until the
    file is touched again. *)
Theorem Load_establishes (f : os.FS) (filename : string) (c : Config) :
  Load f filename = Ok c →
  filePath c = filename
  ∧ NginxConfigDir (Global c) ≠ ""
  ∧ StreamConfigDir (Global c) ≠ ""
  ∧ NginxReloadCmd (Global c) ≠ ""
  ∧ HasChanged f c = false.
Proof.
  intros HL. destruct (Load_Ok f filename c HL) as (Hp & Hv & _).
  split; [done|].
  unfold Validate in Hv.
  destruct (String.eqb (NginxConfigDir (Global c)) "") eqn:E1; [done|].
  destruct (String.eqb (StreamConfigDir (Global c)) "") eqn:E2; [done|].
  destruct (String.eqb (NginxReloadCmd (Global c)) "") eqn:E3; [done|].
  apply String.eqb_neq in E1, E2, E3.
  repeat split; try done. by eapply Load_unchanged.
Qed.

(** X3.  A tick of the poller that reloads the configuration settles it:
    the next tick on the same files finds nothing changed, reloads nothing,
    logs nothing and asks for no rescan. *)
Theorem tick_after_reload_is_idle (w : World) :
  (watchConfigFile_tick w).2 = true →
  watchConfigFile_tick (watchConfigFile_tick w).1 = ((watchConfigFile_tick w).1, false).
Proof.
  unfold watchConfigFile_tick at 1 3 4, config.Reload.
  destruct (HasChanged (fs w) (cfg w)); [|done]. simpl.
  destruct (Load (fs w) (filePath (cfg w))) as [newConfig|e] eqn:HL; [|done].
  intros _. simpl. unfold watchConfigFile_tick. simpl.
  by rewrite (Load_unchanged _ _ _ HL).
Qed.

(** X4.  A tick whose reload fails changes nothing but the log, and the
    change is still pending: the next tick tries the reload again. *)
Theorem failed_reload_is_retried (w : World) (e : lerror) :
  HasChanged (fs w) (cfg w) = true →
  Load (fs w) (filePath (cfg w)) = Err e →
  cfg (watchConfigFile_tick w).1 = cfg w
  ∧ fs (watchConfigFile_tick w).1 = fs w
  ∧ logs (watchConfigFile_tick w).1 = LogConfigReloadFailed e :: LogConfigChanged :: logs w
  ∧ HasChanged (fs (watchConfigFile_tick w).1) (cfg (watchConfigFile_tick w).1) = true
  ∧ logs (watchConfigFile_tick (watchConfigFile_tick w).1).1
    = LogConfigReloadFailed e :: LogConfigChanged
      :: LogConfigReloadFailed e :: LogConfigChanged :: logs w.
Proof.
  intros Hc HL.
  assert (Ht : ∀ w', cfg w' = cfg w → fs w' = fs w →
            watchConfigFile_tick w'
            = (log_Printf (with_cfg (log_Printf w' LogConfigChanged) (cfg w'))
                 (LogConfigReloadFailed e), false)).
  { intros w' Hc' Hf'. unfold watchConfigFile_tick, config.Reload. simpl.
    rewrite Hc', Hf', Hc, HL. done. }
  rewrite (Ht w eq_refl eq_refl). simpl.
  repeat split; try done.
  by rewrite Ht.
Qed.

End loading.

(** The second version of the configuration, once loaded from the edited
    disk, is as X2 says. *)
Lemma Load_establishes_witness :
  filePath scenario.declared_v2 = "conf/config.yaml"
  ∧ NginxConfigDir (Global scenario.declared_v2) ≠ ""
  ∧ StreamConfigDir (Global scenario.declared_v2) ≠ ""
  ∧ NginxReloadCmd (Global scenario.declared_v2) ≠ ""
  ∧ HasChanged (scenario.disk_edited "v2") scenario.declared_v2 = false.
Proof.
  apply (Load_establishes (ym := scenario.decoder) (scenario.disk_edited "v2")
           "conf/config.yaml" scenario.declared_v2).
  vm_compute. reflexivity.
Defined.

(** The valid edit of the scenario is reloaded by one tick and leaves the
    next tick idle. *)
Lemma tick_after_reload_is_idle_witness :
  watchConfigFile_tick (ym := scenario.decoder)
    (watchConfigFile_tick (ym := scenario.decoder)
       (NewManager scenario.declared (scenario.disk_edited "v2"))).1
  = ((watchConfigFile_tick (ym := scenario.decoder)
        (NewManager scenario.declared (scenario.disk_edited "v2"))).1, false).
Proof.
  apply (tick_after_reload_is_idle (ym := scenario.decoder)
           (NewManager scenario.declared (scenario.disk_edited "v2"))).
  vm_compute. reflexivity.
Defined.

(** The malformed edit of the scenario fails to load at every tick. *)
Lemma failed_reload_is_retried_witness :
  HasChanged (fs (watchConfigFile_tick (ym := scenario.decoder)
                    (NewManager scenario.declared (scenario.disk_edited "services: ["))).1)
    (cfg (watchConfigFile_tick (ym := scenario.decoder)
            (NewManager scenario.declared (scenario.disk_edited "services: ["))).1)
  = true.
Proof.
  refine (proj1 (proj2 (proj2 (proj2
            (failed_reload_is_retried (ym := scenario.decoder)
               (NewManager scenario.declared (scenario.disk_edited "services: ["))
               ErrParseConfig _ _))))).
  - vm_compute. reflexivity.
  - vm_compute. reflexivity.
Defined.

End config_facts.

(* ===================================================================== *)
(** * More on the member lists                                            *)
(* ===================================================================== *)

Module member_facts.
Import config nginx registry registry_facts.

(** X5.  An upsert for an address that was upserted just before takes the
    place of the earlier one: the list is what the later upsert alone would
    have made, so a container that restarts on another port leaves one
    member, with the later port, in the position of the earlier one. *)
Theorem upsert_again_replaces (l : list UpstreamServer) (s s' : UpstreamServer) :
  IP s = IP s' →
  updateUpstreamServer (updateUpstreamServer l s) s' = updateUpstreamServer l s'.
Proof.
  intros Hip. induction l as [|e rest IH]; cbn [updateUpstreamServer].
  - by rewrite Hip, String.eqb_refl.
  - rewrite Hip.
    destruct (String.eqb (IP e) (IP s')) eqn:E; cbn [updateUpstreamServer].
    + by rewrite Hip, String.eqb_refl.
    + by rewrite E, IH.
Qed.

Lemma upsert_again_replaces_witness :
  updateUpstreamServer
    (updateUpstreamServer [{| IP := "10.0.0.1"; Port_ := "80/tcp" |}]
       {| IP := "10.0.0.2"; Port_ := "81/tcp" |})
    {| IP := "10.0.0.2"; Port_ := "82/tcp" |}
  = updateUpstreamServer [{| IP := "10.0.0.1"; Port_ := "80/tcp" |}]
      {| IP := "10.0.0.2"; Port_ := "82/tcp" |}.
Proof.
  exact (upsert_again_replaces [{| IP := "10.0.0.1"; Port_ := "80/tcp" |}]
           {| IP := "10.0.0.2"; Port_ := "81/tcp" |}
           {| IP := "10.0.0.2"; Port_ := "82/tcp" |} eq_refl).
Defined.

(** X6.  Adding a server whose address is new and then removing that
    address gives back the list as it was, order included. *)
Theorem upsert_then_remove_restores (l : list UpstreamServer) (s : UpstreamServer) :
  IP s ∉ IP <$> l →
  removeUpstreamServer (updateUpstreamServer l s) (IP s) = l.
Proof.
  induction l as [|e rest IH]; cbn [updateUpstreamServer removeUpstreamServer].
  - intros _. by rewrite String.eqb_refl.
  - rewrite fmap_cons. intros Hnot. apply not_elem_of_cons in Hnot as [Hne Hnot].
    assert (E : String.eqb (IP e) (IP s) = false) by by apply String.eqb_neq.
    rewrite E. cbn [removeUpstreamServer]. rewrite E. by rewrite IH.
Qed.

Lemma upsert_then_remove_restores_witness :
  removeUpstreamServer
    (updateUpstreamServer [{| IP := "10.0.0.1"; Port_ := "80/tcp" |}]
       {| IP := "10.0.0.2"; Port_ := "81/tcp" |})
    "10.0.0.2"
  = [{| IP := "10.0.0.1"; Port_ := "80/tcp" |}].
Proof.
  apply (upsert_then_remove_restores [{| IP := "10.0.0.1"; Port_ := "80/tcp" |}]
           {| IP := "10.0.0.2"; Port_ := "81/tcp" |}).
  intros Hin. apply list_elem_of_singleton in Hin. discriminate Hin.
Defined.

Lemma updateUpstreamServer_Forall (P : UpstreamServer → Prop) (l : list UpstreamServer)
  (s : UpstreamServer) :
  P s → Forall P l → Forall P (updateUpstreamServer l s).
Proof.
  intros Hs Hl. induction Hl as [|e rest He Hrest IH]; cbn [updateUpstreamServer].
  - by constructor.
  - destruct (String.eqb (IP e) (IP s)); by constructor.
Qed.

Lemma removeUpstreamServer_Forall (P : UpstreamServer → Prop) (l : list UpstreamServer)
  (ip : string) :
  Forall P l → Forall P (removeUpstreamServer l ip).
Proof.
  intros Hl. induction Hl as [|e rest He Hrest IH]; cbn [removeUpstreamServer].
  - constructor.
  - destruct (String.eqb (IP e) ip); [done|by constructor].
Qed.

Lemma apply_member_complete (l : list UpstreamServer) (ip : string) (port : nat_Port) :
  Forall (λ u, IP u ≠ "" ∧ Port_ u ≠ "") l →
  Forall (λ u, IP u ≠ "" ∧ Port_ u ≠ "") (apply_member l ip port).
Proof.
  intros Hl. unfold apply_member.
  destruct (String.eqb ip "") eqn:Ei; simpl.
  - by apply removeUpstreamServer_Forall.
  - destruct (String.eqb port "") eqn:Ep; simpl.
    + by apply removeUpstreamServer_Forall.
    + apply updateUpstreamServer_Forall; [|done].
      apply String.eqb_neq in Ei, Ep. done.
Qed.

Section runs.
Context {tt : TextTemplate} {ex : Exec} {fp : os.Filepath}.

Lemma run_ops_complete (service : ServiceConfig) (ops : list (string * nat_Port)) (w : World) :
  Type_ service = "http" ∨ Type_ service = "stream" →
  keyed w →
  Forall (λ u, IP u ≠ "" ∧ Port_ u ≠ "") (members w service) →
  Forall (λ u, IP u ≠ "" ∧ Port_ u ≠ "") (members (run_ops w service ops) service).
Proof.
  intros Ht. revert w. induction ops as [|op ops IH]; intros w Hk Hall; [done|].
  unfold run_ops. simpl. fold (run_ops (UpdateService w service op.1 op.2).1 service ops).
  destruct (UpdateService_members w service op Ht Hk) as [Hk' Hm].
  apply IH; [done|]. rewrite Hm. by apply apply_member_complete.
Qed.

(** X7.  Whatever calls of [UpdateService] a fresh manager receives for a
    service of type http or stream, every member it holds has an address and
    a port: a call that lacks either is a removal and never stores
    anything. *)
Theorem members_have_address_and_port (c : Config) (f : os.FS) (service : ServiceConfig)
  (ops : list (string * nat_Port)) :
  Type_ service = "http" ∨ Type_ service = "stream" →
  Forall (λ u, IP u ≠ "" ∧ Port_ u ≠ "")
    (members (run_ops (NewManager c f) service ops) service).
Proof.
  intros Ht. apply run_ops_complete; [done| |].
  - split; intros k x; simpl; by rewrite lookup_empty.
  - unfold members. simpl. rewrite !lookup_empty. by repeat case_match.
Qed.

End runs.

Lemma members_have_address_and_port_witness :
  Forall (λ u, IP u ≠ "" ∧ Port_ u ≠ "")
    (members (run_ops (tt := shipped.engine) (fp := shipped.join_slash)
                (NewManager scenario.declared scenario.disk)
                scenario.api [("10.0.0.1", "80/tcp"); ("", "81/tcp"); ("10.0.0.2", "")])
       scenario.api).
Proof.
  exact (members_have_address_and_port (tt := shipped.engine) (fp := shipped.join_slash)
           scenario.declared scenario.disk scenario.api
           [("10.0.0.1", "80/tcp"); ("", "81/tcp"); ("10.0.0.2", "")]
           (or_introl eq_refl)).
Defined.

End member_facts.

(* ===================================================================== *)
(** * More on updates and their files                                     *)
(* ===================================================================== *)

Module update_facts.
Import config nginx registry registry_facts materialize_facts.

Lemma updateUpstreamServer_nonempty (l : list UpstreamServer) (s : UpstreamServer) :
  updateUpstreamServer l s ≠ [].
Proof. destruct l as [|e rest]; simpl; [done|]. by destruct (String.eqb (IP e) (IP s)). Qed.

Lemma ValidateService_type (c : Config) (service : ServiceConfig) :
  ValidateService c service = None → Type_ service = "http" ∨ Type_ service = "stream".
Proof.
  unfold ValidateService. destruct (String.eqb (Name service) ""); [done|].
  destruct (String.eqb (Type_ service) "http") eqn:Eh.
  - intros _. left. by apply String.eqb_eq.
  - destruct (String.eqb (Type_ service) "stream") eqn:Es; [|done].
    intros _. right. by apply String.eqb_eq.
Qed.

Lemma keyed_with_member (f : os.FS) : keyed (observe.with_member f).
Proof.
  split; intros k x; simpl.
  - intros Hl. apply lookup_singleton_Some in Hl as [<- <-]. done.
  - by rewrite lookup_empty.
Qed.

Section updates.
Context {tt : TextTemplate} {ex : Exec} {fp : os.Filepath}.

(** What a materialization does to the files: only the artifact of the
    entry can change, and the denied paths stay as they are. *)
Lemma generateHTTPConfig_files (w : World) (h : HTTPConfig) (p : string) :
  p ≠ conf_path (NginxConfigDir (Global (cfg w))) (h_ServiceName h) →
  os.files (fs (generateHTTPConfig w h).1) !! p = os.files (fs w) !! p
  ∧ os.denied (fs (generateHTTPConfig w h).1) = os.denied (fs w).
Proof.
  intros Hp. unfold generateHTTPConfig, conf_path in *.
  destruct (length (h_Upstream h) =? 0)%nat.
  - unfold deleteHTTPConfig, conf_path, os.Remove.
    case_bool_decide; simpl; [done|].
    destruct (os.files (fs w) !! _) eqn:E; simpl; [|done].
    by rewrite lookup_delete_ne.
  - pose proof (buildHTTPConfigContent_frame w h) as (Hc & _ & _ & Hf & _).
    destruct (buildHTTPConfigContent w h) as [w1 text]. simpl in *.
    rewrite Hc, Hf. unfold os.WriteFile. case_bool_decide; simpl; [done|].
    by rewrite lookup_insert_ne.
Qed.

Lemma generateStreamConfig_files (w : World) (s : StreamConfig) (p : string) :
  p ≠ conf_path (StreamConfigDir (Global (cfg w))) (s_ServiceName s) →
  os.files (fs (generateStreamConfig w s).1) !! p = os.files (fs w) !! p
  ∧ os.denied (fs (generateStreamConfig w s).1) = os.denied (fs w).
Proof.
  intros Hp. unfold generateStreamConfig, conf_path in *.
  destruct ((length (s_Upstream s) =? 0)%nat && negb (s_EnableSNI s)).
  - unfold deleteStreamConfig, conf_path, os.Remove.
    case_bool_decide; simpl; [done|].
    destruct (os.files (fs w) !! _) eqn:E; simpl; [|done].
    by rewrite lookup_delete_ne.
  - pose proof (buildStreamConfigContent_frame w s) as (Hc & _ & _ & Hf & _).
    destruct (buildStreamConfigContent w s) as [w1 text]. simpl in *.
    rewrite Hc, Hf. unfold os.WriteFile. case_bool_decide; simpl; [done|].
    by rewrite lookup_insert_ne.
Qed.

Lemma generateHTTPConfig_allowed (w : World) (h : HTTPConfig) :
  conf_path (NginxConfigDir (Global (cfg w))) (h_ServiceName h) ∉ os.denied (fs w) →
  (generateHTTPConfig w h).2 = None.
Proof.
  intros Hd. unfold generateHTTPConfig.
  destruct (length (h_Upstream h) =? 0)%nat.
  - by apply deleteHTTPConfig_allowed.
  - unfold conf_path in Hd.
    pose proof (buildHTTPConfigContent_frame w h) as (Hc & _ & _ & Hf & _).
    destruct (buildHTTPConfigContent w h) as [w1 text]. simpl in *.
    rewrite Hc, Hf. by rewrite WriteFile_allowed.
Qed.

Lemma generateStreamConfig_allowed (w : World) (s : StreamConfig) :
  conf_path (StreamConfigDir (Global (cfg w))) (s_ServiceName s) ∉ os.denied (fs w) →
  (generateStreamConfig w s).2 = None.
Proof.
  intros Hd. unfold generateStreamConfig.
  destruct ((length (s_Upstream s) =? 0)%nat && negb (s_EnableSNI s)).
  - by apply deleteStreamConfig_allowed.
  - unfold conf_path in Hd.
    pose proof (buildStreamConfigContent_frame w s) as (Hc & _ & _ & Hf & _).
    destruct (buildStreamConfigContent w s) as [w1 text]. simpl in *.
    rewrite Hc, Hf. by rewrite WriteFile_allowed.
Qed.

(** X8.  For a service that passes [ValidateService], [UpdateService] can
    fail only on the file system: when the artifact paths of the service are
    not refused, it returns no error, whatever happens to the rendering. *)
Theorem validated_update_fails_only_on_files (w : World) (service : ServiceConfig)
  (ip : string) (port : nat_Port) :
  ValidateService (cfg w) service = None →
  keyed w →
  conf_path (NginxConfigDir (Global (cfg w))) (Name service) ∉ os.denied (fs w) →
  conf_path (StreamConfigDir (Global (cfg w))) (Name service) ∉ os.denied (fs w) →
  (UpdateService w service ip port).2 = None.
Proof.
  intros Hv Hk Hh Hs. unfold UpdateService.
  destruct (ValidateService_type _ _ Hv) as [Ht|Ht]; rewrite Ht; simpl.
  - unfold updateHTTPService.
    change (match httpConfigs w !! Name service with
            | Some httpConfig => httpConfig
            | None => _
            end) with (http_entry w service).
    apply generateHTTPConfig_allowed. simpl. by rewrite (http_entry_name w service Hk).
  - unfold updateStreamService.
    change (match streamConfigs w !! Name service with
            | Some streamConfig => streamConfig
            | None => _
            end) with (stream_entry w service).
    apply generateStreamConfig_allowed. simpl. by rewrite (stream_entry_name w service Hk).
Qed.

(** X9.  When the artifact path of an http service is refused by the file
    system, [updateHTTPService] returns an error and leaves the files as they
    were, but the registry keeps the change: the entry of the service holds
    the new member list. *)
Theorem file_error_is_not_rolled_back (w : World) (service : ServiceConfig)
  (ip : string) (port : nat_Port) :
  keyed w →
  conf_path (NginxConfigDir (Global (cfg w))) (Name service) ∈ os.denied (fs w) →
  (updateHTTPService w service ip port).2 ≠ None
  ∧ fs (updateHTTPService w service ip port).1 = fs w
  ∧ httpConfigs (updateHTTPService w service ip port).1 !! Name service
    = Some (h_with_Upstream (http_entry w service)
              (apply_member (h_Upstream (http_entry w service)) ip port)).
Proof.
  intros Hk Hd. unfold updateHTTPService.
  change (match httpConfigs w !! Name service with
          | Some httpConfig => httpConfig
          | None => _
          end) with (http_entry w service).
  set (h := h_with_Upstream _ _).
  assert (Hn : h_ServiceName h = Name service) by apply (http_entry_name w service Hk).
  unfold generateHTTPConfig.
  destruct (length (h_Upstream h) =? 0)%nat.
  - unfold deleteHTTPConfig, os.Remove, conf_path in *. rewrite Hn. simpl.
    rewrite bool_decide_eq_true_2; [|done]. simpl.
    split; [done|]. split; [done|]. by rewrite lookup_insert_eq.
  - pose proof (buildHTTPConfigContent_frame
                  (with_httpConfigs w (<[Name service := h]> (httpConfigs w))) h)
      as (Hc & Hh & _ & Hf & _).
    destruct (buildHTTPConfigContent _ h) as [w1 text]. simpl in *.
    unfold os.WriteFile. rewrite Hc, Hf, Hn. unfold conf_path in Hd.
    rewrite bool_decide_eq_true_2; [|done]. simpl.
    split; [done|]. split; [done|]. by rewrite Hh, lookup_insert_eq.
Qed.

(** X10.  An upsert on an http service whose artifact path is not refused
    returns no error and leaves the updated entry in the registry and, in the
    artifact, exactly the text rendered from that entry. *)
Theorem upsert_writes_the_rendering (w : World) (service : ServiceConfig)
  (ip : string) (port : nat_Port) :
  ip ≠ "" → port ≠ "" →
  keyed w →
  conf_path (NginxConfigDir (Global (cfg w))) (Name service) ∉ os.denied (fs w) →
  (updateHTTPService w service ip port).2 = None
  ∧ httpConfigs (updateHTTPService w service ip port).1 !! Name service
    = Some (h_with_Upstream (http_entry w service)
              (updateUpstreamServer (h_Upstream (http_entry w service))
                 {| IP := ip; Port_ := port |}))
  ∧ os.content <$> (os.files (fs (updateHTTPService w service ip port).1)
                      !! conf_path (NginxConfigDir (Global (cfg w))) (Name service))
    = Some (buildHTTPConfigContent
              (with_httpConfigs w
                 (<[Name service :=
                      h_with_Upstream (http_entry w service)
                        (updateUpstreamServer (h_Upstream (http_entry w service))
                           {| IP := ip; Port_ := port |})]> (httpConfigs w)))
              (h_with_Upstream (http_entry w service)
                 (updateUpstreamServer (h_Upstream (http_entry w service))
                    {| IP := ip; Port_ := port |}))).2.
Proof.
  intros Hi Hp Hk Hd. unfold updateHTTPService.
  change (match httpConfigs w !! Name service with
          | Some httpConfig => httpConfig
          | None => _
          end) with (http_entry w service).
  assert (Ha : apply_member (h_Upstream (http_entry w service)) ip port
               = updateUpstreamServer (h_Upstream (http_entry w service))
                   {| IP := ip; Port_ := port |}).
  { unfold apply_member. apply String.eqb_neq in Hi, Hp. by rewrite Hi, Hp. }
  rewrite Ha. set (h := h_with_Upstream _ _).
  assert (Hn : h_ServiceName h = Name service) by apply (http_entry_name w service Hk).
  unfold generateHTTPConfig.
  destruct (h_Upstream h) as [|u us] eqn:Eu.
  { by apply updateUpstreamServer_nonempty in Eu. }
  simpl.
  pose proof (buildHTTPConfigContent_frame
                (with_httpConfigs w (<[Name service := h]> (httpConfigs w))) h)
    as (Hc & Hh & _ & Hf & _).
  destruct (buildHTTPConfigContent _ h) as [w1 text]. simpl in *.
  rewrite Hc, Hf, Hn. unfold conf_path in *.
  rewrite WriteFile_allowed; [|done]. simpl.
  split; [done|]. split; [by rewrite Hh, lookup_insert_eq|].
  by rewrite lookup_insert_eq.
Qed.

(** X11.  [UpdateService] for one service leaves every other service
    alone: the entries under other names, in both maps, and every file other
    than the two artifact paths of the service are as before. *)
Theorem update_leaves_other_services (w : World) (service : ServiceConfig)
  (ip : string) (port : nat_Port) :
  keyed w →
  (∀ k, k ≠ Name service →
     httpConfigs (UpdateService w service ip port).1 !! k = httpConfigs w !! k
     ∧ streamConfigs (UpdateService w service ip port).1 !! k = streamConfigs w !! k)
  ∧ (∀ p, p ≠ conf_path (NginxConfigDir (Global (cfg w))) (Name service) →
          p ≠ conf_path (StreamConfigDir (Global (cfg w))) (Name service) →
          os.files (fs (UpdateService w service ip port).1) !! p = os.files (fs w) !! p).
Proof.
  intros Hk. unfold UpdateService.
  destruct (String.eqb (Type_ service) "http").
  - pose proof (updateHTTPService_registry w service ip port) as (_ & Hs & Hh).
    pose proof (http_entry_name w service Hk) as Hn.
    split.
    + intros k Hne. rewrite Hs. split; [|done].
      destruct Hh as [-> | [_ ->]].
      * by rewrite lookup_insert_ne.
      * simpl. rewrite Hn. by rewrite lookup_delete_ne, lookup_insert_ne.
    + intros p Hp _. unfold updateHTTPService.
      change (match httpConfigs w !! Name service with
              | Some httpConfig => httpConfig
              | None => _
              end) with (http_entry w service).
      refine (proj1 (generateHTTPConfig_files (with_httpConfigs w _) _ p _)).
      simpl. by rewrite Hn.
  - destruct (String.eqb (Type_ service) "stream"); [|done].
    pose proof (updateStreamService_registry w service ip port) as (_ & Hh & Hs).
    pose proof (stream_entry_name w service Hk) as Hn.
    split.
    + intros k Hne. rewrite Hh. split; [done|].
      destruct Hs as [-> | [_ ->]].
      * by rewrite lookup_insert_ne.
      * simpl. rewrite Hn. by rewrite lookup_delete_ne, lookup_insert_ne.
    + intros p _ Hp. unfold updateStreamService.
      change (match streamConfigs w !! Name service with
              | Some streamConfig => streamConfig
              | None => _
              end) with (stream_entry w service).
      refine (proj1 (generateStreamConfig_files (with_streamConfigs w _) _ p _)).
      simpl. by rewrite Hn.
Qed.

End updates.

(** A second container of [api] comes up while the registry holds one
    member and nothing on the disk is refused. *)
Lemma validated_update_fails_only_on_files_witness :
  (UpdateService (tt := shipped.engine) (fp := shipped.join_slash)
     (observe.with_member scenario.disk) scenario.api "10.0.0.2" "81/tcp").2 = None.
Proof.
  apply (validated_update_fails_only_on_files (tt := shipped.engine) (fp := shipped.join_slash)
           (observe.with_member scenario.disk) scenario.api "10.0.0.2" "81/tcp").
  - reflexivity.
  - apply keyed_with_member.
  - apply not_elem_of_empty.
  - apply not_elem_of_empty.
Defined.

Lemma upsert_writes_the_rendering_witness :
  (updateHTTPService (tt := shipped.engine) (fp := shipped.join_slash)
     (observe.with_member scenario.disk) scenario.api "10.0.0.2" "81/tcp").2 = None.
Proof.
  refine (proj1 (upsert_writes_the_rendering (tt := shipped.engine) (fp := shipped.join_slash)
                   (observe.with_member scenario.disk) scenario.api "10.0.0.2" "81/tcp"
                   _ _ (keyed_with_member scenario.disk) _)).
  - discriminate.
  - discriminate.
  - apply not_elem_of_empty.
Defined.

(** The same call when the artifact of [api] cannot be written. *)
Lemma file_error_is_not_rolled_back_witness :
  (updateHTTPService (tt := shipped.engine) (fp := shipped.join_slash)
     (observe.with_member observe.disk_read_only) scenario.api "10.0.0.2" "81/tcp").2 ≠ None.
Proof.
  refine (proj1 (file_error_is_not_rolled_back (tt := shipped.engine) (fp := shipped.join_slash)
                   (observe.with_member observe.disk_read_only) scenario.api
                   "10.0.0.2" "81/tcp" (keyed_with_member observe.disk_read_only) _)).
  change ("/etc/nginx/conf.d/api.conf" ∈ ({[ "/etc/nginx/conf.d/api.conf" ]} : gset string)).
  by apply elem_of_singleton_2.
Defined.

(** An update of [mysql] does not touch the entry of [api]. *)
Lemma update_leaves_other_services_witness :
  httpConfigs (UpdateService (tt := shipped.engine) (fp := shipped.join_slash)
                 (observe.with_member scenario.disk) scenario.mysql "10.0.0.7" "3306/tcp").1
    !! "api"
  = httpConfigs (observe.with_member scenario.disk) !! "api".
Proof.
  refine (proj1 (proj1 (update_leaves_other_services (tt := shipped.engine)
                          (fp := shipped.join_slash) (observe.with_member scenario.disk)
                          scenario.mysql "10.0.0.7" "3306/tcp"
                          (keyed_with_member scenario.disk)) "api" _)).
  discriminate.
Defined.

(** The stop handler's call on a registry that holds a member. *)
Lemma stop_update_keeps_members_witness :
  members (UpdateService (tt := shipped.engine) (fp := shipped.join_slash)
             (observe.with_member scenario.disk) scenario.api "" "").1 scenario.api
  = members (observe.with_member scenario.disk) scenario.api.
Proof.
  apply (handler_facts.stop_update_keeps_members (tt := shipped.engine)
           (fp := shipped.join_slash) (observe.with_member scenario.disk) scenario.api).
  - left. reflexivity.
  - apply keyed_with_member.
  - change ("" ∉ ["10.0.0.1"]). intros Hin.
    apply list_elem_of_singleton in Hin. discriminate Hin.
Defined.

(** The template is gone while the registry holds a member of [api]. *)
Lemma render_failure_writes_empty_witness :
  (generateHTTPConfig (tt := shipped.engine) (fp := shipped.join_slash)
     (observe.with_member scenario.disk_without_template) observe.api_entry).2 = None.
Proof.
  refine (proj1 (handler_facts.render_failure_writes_empty (tt := shipped.engine)
                   (fp := shipped.join_slash)
                   (observe.with_member scenario.disk_without_template) observe.api_entry
                   _ _ _)).
  - discriminate.
  - reflexivity.
  - apply not_elem_of_empty.
Defined.

End update_facts.

(* ===================================================================== *)
(** * More on the reload command and the handlers                         *)
(* ===================================================================== *)

Module event_facts.
Import config nginx watcher registry registry_facts observe.

Lemma append_snoc (s t : string) (c : Ascii.ascii) :
  (s +:+ String c "") +:+ t = s +:+ String c t.
Proof.
  induction s as [|a s IH]; [done|].
  change (String a ((s +:+ String c "") +:+ t) = String a (s +:+ String c t)).
  by rewrite IH.
Qed.

(** A white space character at the head of a string is still there when
    the string is cut short after it, so none appears by cutting. *)
Lemma space_width_cut (s rest : string) :
  space_width (s +:+ rest) = 0%nat → space_width s = 0%nat.
Proof.
  destruct s as [|c1 [|c2 [|c3 t]]]; [done| | |].
  - change (String c1 "" +:+ rest) with (String c1 rest).
    unfold space_width. destruct (space1 _); [done|]. done.
  - change (String c1 (String c2 "") +:+ rest) with (String c1 (String c2 rest)).
    unfold space_width. destruct (space1 _); [done|]. by destruct (space2 _ _).
  - change (String c1 (String c2 (String c3 t)) +:+ rest)
      with (String c1 (String c2 (String c3 (t +:+ rest)))).
    done.
Qed.

Lemma no_space_in_snoc (cur t : string) (c : Ascii.ascii) :
  no_space_in cur (String c t) = true →
  space_width (String c t) = 0%nat →
  no_space_in (cur +:+ String c "") t = true.
Proof.
  intros Hcur Hc. induction cur as [|a cur IH].
  - change (((space_width (String c t) =? 0)%nat && true) = true). by rewrite Hc.
  - change (((space_width (String a cur +:+ String c t) =? 0)%nat
             && no_space_in cur (String c t)) = true) in Hcur.
    apply andb_true_iff in Hcur as [Ha Hcur].
    change (((space_width (String a ((cur +:+ String c "") +:+ t)) =? 0)%nat
             && no_space_in (cur +:+ String c "") t) = true).
    rewrite append_snoc. apply andb_true_iff. split; [done|]. by apply IH.
Qed.

Lemma no_space_in_has_space (cur rest : string) :
  no_space_in cur rest = true → has_space cur = false.
Proof.
  induction cur as [|a cur IH]; [done|]. intros Hcur.
  change (((space_width (String a cur +:+ rest) =? 0)%nat && no_space_in cur rest) = true)
    in Hcur.
  apply andb_true_iff in Hcur as [Ha Hcur]. apply Nat.eqb_eq in Ha.
  change ((negb (space_width (String a cur) =? 0)%nat || has_space cur) = false).
  rewrite (space_width_cut _ _ Ha). simpl. by apply IH.
Qed.

Lemma Fields_from_fields (s cur : string) (skip : nat) :
  no_space_in cur s = true →
  (skip ≠ 0%nat → cur = "") →
  Forall (λ f, f ≠ "" ∧ has_space f = false) (Fields_from skip cur s).
Proof.
  revert cur skip. induction s as [|c t IH]; intros cur skip Hcur Hskip;
    cbn [Fields_from].
  - destruct (String.eqb cur "") eqn:E; [constructor|].
    apply String.eqb_neq in E. constructor; [|constructor].
    split; [done|]. by eapply no_space_in_has_space.
  - destruct skip as [|k].
    + destruct (space_width (String c t)) as [|k] eqn:Ew.
      * apply IH; [by apply no_space_in_snoc|done].
      * destruct (String.eqb cur "") eqn:E.
        -- apply IH; done.
        -- apply String.eqb_neq in E. constructor.
           ++ split; [done|]. by eapply no_space_in_has_space.
           ++ apply IH; done.
    + rewrite (Hskip ltac:(done)). apply IH; done.
Qed.

(** A no-break space cuts the command as any white space does: the six
    fields below are what the code runs when the reload command has one
    between [nginx] and [-s].  A command of no-break spaces has no field. *)
Example Fields_cut_at_no_break_space :
  strings_Fields observe.reload_cmd_nbsp
  = ["docker"; "exec"; "nginx-ui"; "nginx"; "-s"; "reload"]
  ∧ strings_Fields (observe.nbsp +:+ observe.nbsp +:+ observe.nbsp) = [].
Proof. split; reflexivity. Qed.

Section events.
Context {tt : TextTemplate} {ex : Exec} {fp : os.Filepath}.

(** X12.  [Manager.Reload] runs nothing and fails when the configured
    command has no field; otherwise it runs exactly one command, whose
    executable name and arguments are the fields of the configured command as
    [strings.Fields] cuts them at white space in the sense of
    [unicode.IsSpace] (none of them empty, none holding such a character),
    and it fails exactly when that command fails.  It touches neither the
    registry nor the files nor the configuration. *)
Theorem Reload_runs_the_fields (w : World) :
  match strings_Fields (NginxReloadCmd (Global (cfg w))) with
  | [] =>
      (nginx.Reload w).2 = Some ErrReloadCmdEmpty ∧ cmds (nginx.Reload w).1 = cmds w
  | name :: args =>
      cmds (nginx.Reload w).1 = (name :: args) :: cmds w
      ∧ Forall (λ f, f ≠ "" ∧ has_space f = false) (name :: args)
      ∧ (nginx.Reload w).2
        = (if CombinedOutput_ok (name :: args) then None else Some ErrReloadCmdFailed)
  end
  ∧ cfg (nginx.Reload w).1 = cfg w
  ∧ httpConfigs (nginx.Reload w).1 = httpConfigs w
  ∧ streamConfigs (nginx.Reload w).1 = streamConfigs w
  ∧ fs (nginx.Reload w).1 = fs w.
Proof.
  pose proof (Fields_from_fields (NginxReloadCmd (Global (cfg w))) "" 0 eq_refl
                ltac:(done)) as Hf.
  fold (strings_Fields (NginxReloadCmd (Global (cfg w)))) in Hf.
  unfold nginx.Reload. simpl.
  destruct (strings_Fields (NginxReloadCmd (Global (cfg w)))) as [|name args]; simpl.
  - by repeat split.
  - destruct (CombinedOutput_ok (name :: args)); by repeat split.
Qed.

(** The log is write-only: a function run on a world with another log
    does the same, up to the log. *)
Lemma buildHTTPConfigContent_logs (w : World) (l : list logline) (h : HTTPConfig) :
  ∃ l', buildHTTPConfigContent (with_logs w l) h
        = (with_logs (buildHTTPConfigContent w h).1 l', (buildHTTPConfigContent w h).2).
Proof.
  unfold buildHTTPConfigContent.
  change (loadTemplate (with_logs w l)) with (loadTemplate w).
  change (cfg (with_logs w l)) with (cfg w).
  destruct (loadTemplate w _) as [text|e]; [|by eexists].
  destruct (template_Parse text) as [tmpl|]; [|by eexists].
  destruct (Execute_http tmpl _); by eexists.
Qed.

Lemma buildStreamConfigContent_logs (w : World) (l : list logline) (s : StreamConfig) :
  ∃ l', buildStreamConfigContent (with_logs w l) s
        = (with_logs (buildStreamConfigContent w s).1 l', (buildStreamConfigContent w s).2).
Proof.
  unfold buildStreamConfigContent.
  change (loadTemplate (with_logs w l)) with (loadTemplate w).
  change (cfg (with_logs w l)) with (cfg w).
  destruct (loadTemplate w _) as [text|e]; [|by eexists].
  destruct (template_Parse text) as [tmpl|]; [|by eexists].
  destruct (Execute_stream tmpl _); by eexists.
Qed.

Lemma generateHTTPConfig_logs (w : World) (l : list logline) (h : HTTPConfig) :
  ∃ l', generateHTTPConfig (with_logs w l) h
        = (with_logs (generateHTTPConfig w h).1 l', (generateHTTPConfig w h).2).
Proof.
  unfold generateHTTPConfig. destruct (length (h_Upstream h) =? 0)%nat.
  - unfold deleteHTTPConfig.
    change (fs (with_logs w l)) with (fs w). change (cfg (with_logs w l)) with (cfg w).
    destruct (os.Remove (fs w) _) as [fs' [e|]]; [destruct e|]; by eexists.
  - destruct (buildHTTPConfigContent_logs w l h) as [l' ->].
    pose proof (registry_facts.buildHTTPConfigContent_frame w h) as _.
    destruct (buildHTTPConfigContent w h) as [w1 text]. simpl.
    destruct (os.WriteFile (fs w1) _ text) as [fs' [e|]]; by eexists.
Qed.

Lemma generateStreamConfig_logs (w : World) (l : list logline) (s : StreamConfig) :
  ∃ l', generateStreamConfig (with_logs w l) s
        = (with_logs (generateStreamConfig w s).1 l', (generateStreamConfig w s).2).
Proof.
  unfold generateStreamConfig.
  destruct ((length (s_Upstream s) =? 0)%nat && negb (s_EnableSNI s)).
  - unfold deleteStreamConfig.
    change (fs (with_logs w l)) with (fs w). change (cfg (with_logs w l)) with (cfg w).
    destruct (os.Remove (fs w) _) as [fs' [e|]]; [destruct e|]; by eexists.
  - destruct (buildStreamConfigContent_logs w l s) as [l' ->].
    destruct (buildStreamConfigContent w s) as [w1 text]. simpl.
    destruct (os.WriteFile (fs w1) _ text) as [fs' [e|]]; by eexists.
Qed.

Lemma UpdateService_logs (w : World) (l : list logline) (service : ServiceConfig)
  (ip : string) (port : nat_Port) :
  ∃ l', UpdateService (with_logs w l) service ip port
        = (with_logs (UpdateService w service ip port).1 l',
           (UpdateService w service ip port).2).
Proof.
  unfold UpdateService.
  destruct (String.eqb (Type_ service) "http").
  - unfold updateHTTPService.
    change (httpConfigs (with_logs w l)) with (httpConfigs w).
    apply (generateHTTPConfig_logs (with_httpConfigs w _) l).
  - destruct (String.eqb (Type_ service) "stream"); [|by eexists].
    unfold updateStreamService.
    change (streamConfigs (with_logs w l)) with (streamConfigs w).
    apply (generateStreamConfig_logs (with_streamConfigs w _) l).
Qed.

Lemma Reload_logs (w : World) (l : list logline) :
  ∃ l', nginx.Reload (with_logs w l) = (with_logs (nginx.Reload w).1 l', (nginx.Reload w).2).
Proof.
  unfold nginx.Reload. change (cfg (with_logs w l)) with (cfg w). simpl.
  destruct (length (strings_Fields _) =? 0)%nat; [by eexists|].
  destruct (CombinedOutput_ok _); by eexists.
Qed.

Lemma update_and_reload_logs (w : World) (l : list logline) (service : ServiceConfig)
  (ip : string) (port : nat_Port) :
  ∃ l', update_and_reload (with_logs w l) service ip port
        = with_logs (update_and_reload w service ip port) l'.
Proof.
  unfold update_and_reload.
  destruct (UpdateService_logs w l service ip port) as [l1 ->].
  destruct (UpdateService w service ip port) as [w1 [e|]]; simpl; [by eexists|].
  destruct (Reload_logs w1 l1) as [l2 ->].
  destruct (nginx.Reload w1) as [w2 [e|]]; by eexists.
Qed.

Lemma updateNginxConfig_logs (w : World) (l : list logline) (service : ServiceConfig)
  (container : option ContainerJSON) :
  ∃ l', updateNginxConfig (with_logs w l) service container
        = with_logs (updateNginxConfig w service container) l'.
Proof.
  unfold updateNginxConfig. destruct container as [container|].
  - change (getContainerIP (with_logs w l) container) with (getContainerIP w container).
    destruct (String.eqb (getContainerIP w container) ""); [by eexists|].
    destruct (String.eqb (getContainerPort container service) ""); [by eexists|].
    apply update_and_reload_logs.
  - apply update_and_reload_logs.
Qed.

(** X13.  A rename event is handled as a start event is: on the same world
    and with the same answer of the runtime, [handleContainerRename] and
    [handleContainerStart] leave the same configuration, registry and files
    and run the same commands; they differ in what they log. *)
Theorem rename_is_handled_as_start (ContainerInspect : string → option ContainerJSON)
  (w : World) (containerID : string) :
  observable (handleContainerRename ContainerInspect w containerID)
  = observable (handleContainerStart ContainerInspect w containerID).
Proof.
  unfold handleContainerRename, handleContainerStart.
  destruct (ContainerInspect containerID) as [container|]; [|done].
  destruct (GetServiceByContainerName (cfg w) (c_Name container)) as [service|]; [|done].
  destruct (ValidateService (cfg w) service); [done|].
  change (log_Printf w (LogHandleRename (c_Name container)))
    with (with_logs w (LogHandleRename (c_Name container) :: logs w)).
  change (log_Printf w (LogHandleStart (c_Name container)))
    with (with_logs w (LogHandleStart (c_Name container) :: logs w)).
  destruct (updateNginxConfig_logs w (LogHandleRename (c_Name container) :: logs w)
              service (Some container)) as [l1 ->].
  by destruct (updateNginxConfig_logs w (LogHandleStart (c_Name container) :: logs w)
                 service (Some container)) as [l2 ->].
Qed.

(** X14.  An event changes nothing but the log unless its container can be
    inspected, matches a declared service and that service passes validation:
    the configuration, the registry and the files stay as they are and no
    command is run, whatever the action of the event. *)
Theorem unmatched_event_touches_nothing (ContainerInspect : string → option ContainerJSON)
  (w : World) (event : Message) :
  (∀ container service,
     ContainerInspect (ActorID event) = Some container →
     GetServiceByContainerName (cfg w) (c_Name container) = Some service →
     ValidateService (cfg w) service ≠ None) →
  observable (handleEvent ContainerInspect w event) = observable w.
Proof.
  intros Hno. unfold handleEvent.
  assert (Hstart : observable
            (handleContainerStart ContainerInspect
               (log_Printf w (LogEvent (Action event) (ActorID event))) (ActorID event))
            = observable w).
  { unfold handleContainerStart.
    destruct (ContainerInspect (ActorID event)) as [container|] eqn:Hi; [|done].
    simpl. destruct (GetServiceByContainerName (cfg w) (c_Name container))
      as [service|] eqn:Hs; [|done].
    specialize (Hno container service eq_refl Hs).
    by destruct (ValidateService (cfg w) service). }
  destruct (String.eqb (Action event) "start"); [done|].
  destruct (String.eqb (Action event) "stop" || String.eqb (Action event) "die").
  - unfold handleContainerStop.
    destruct (ContainerInspect (ActorID event)) as [container|] eqn:Hi; [|done].
    simpl. destruct (GetServiceByContainerName (cfg w) (c_Name container))
      as [service|] eqn:Hs; [|done].
    specialize (Hno container service eq_refl Hs).
    by destruct (ValidateService (cfg w) service).
  - destruct (String.eqb (Action event) "rename"); [|done].
    unfold handleContainerRename.
    destruct (ContainerInspect (ActorID event)) as [container|] eqn:Hi; [|done].
    simpl. destruct (GetServiceByContainerName (cfg w) (c_Name container))
      as [service|] eqn:Hs; [|done].
    specialize (Hno container service eq_refl Hs).
    by destruct (ValidateService (cfg w) service).
Qed.

Lemma update_and_reload_registry (w : World) (service : ServiceConfig) (ip : string)
  (port : nat_Port) :
  httpConfigs (update_and_reload w service ip port)
  = httpConfigs (UpdateService w service ip port).1
  ∧ streamConfigs (update_and_reload w service ip port)
    = streamConfigs (UpdateService w service ip port).1.
Proof.
  unfold update_and_reload.
  destruct (UpdateService w service ip port) as [w1 [e|]]; simpl; [done|].
  unfold nginx.Reload. simpl.
  destruct (length (strings_Fields _) =? 0)%nat; [done|].
  by destruct (CombinedOutput_ok _).
Qed.

(** X15.  A start event whose container is inspected, matches a service
    that passes validation and resolves to a non-empty address upserts
    exactly the resolved pair: the member list of the service afterwards is
    [updateUpstreamServer] of the list before with the resolved address and
    port, whether or not the files could be written or the proxy reloaded. *)
Theorem start_upserts_the_resolved_address (ContainerInspect : string → option ContainerJSON)
  (w : World) (containerID : string) (container : ContainerJSON) (service : ServiceConfig) :
  ContainerInspect containerID = Some container →
  GetServiceByContainerName (cfg w) (c_Name container) = Some service →
  ValidateService (cfg w) service = None →
  keyed w →
  getContainerIP w container ≠ "" →
  members (handleContainerStart ContainerInspect w containerID) service
  = updateUpstreamServer (members w service)
      {| IP := getContainerIP w container;
         Port_ := getContainerPort container service |}.
Proof.
  intros Hi Hs Hv Hk Hip. unfold handleContainerStart. rewrite Hi, Hs, Hv.
  cbv zeta. unfold updateNginxConfig.
  change (getContainerIP (log_Printf w (LogHandleStart (c_Name container))) container)
    with (getContainerIP w container).
  pose proof (resolver_facts.getContainerPort_nonempty container service) as Hport.
  apply String.eqb_neq in Hip, Hport. rewrite Hip, Hport.
  set (w' := log_Printf w (LogHandleStart (c_Name container))).
  set (ip := getContainerIP w container). set (port := getContainerPort container service).
  destruct (update_and_reload_registry w' service ip port) as [Hh Hst].
  assert (Hm : members (update_and_reload w' service ip port) service
               = members (UpdateService w' service ip port).1 service).
  { unfold members. by rewrite Hh, Hst. }
  rewrite Hm.
  destruct (UpdateService_members w' service (ip, port)
              (update_facts.ValidateService_type _ _ Hv) Hk) as [_ Hu].
  simpl in Hu. rewrite Hu. unfold apply_member. subst ip port. by rewrite Hip, Hport.
Qed.

End events.

Lemma unmatched_event_touches_nothing_witness :
  observable (handleEvent (tt := shipped.engine) (ex := shipped.exec_ok)
                (fp := shipped.join_slash) no_container scenario.boot scenario.start_c1)
  = observable scenario.boot.
Proof.
  apply (unmatched_event_touches_nothing (tt := shipped.engine) (ex := shipped.exec_ok)
           (fp := shipped.join_slash) no_container scenario.boot scenario.start_c1).
  intros container service Hi. discriminate Hi.
Defined.

Lemma start_upserts_the_resolved_address_witness :
  members (handleContainerStart (tt := shipped.engine) (ex := shipped.exec_ok)
             (fp := shipped.join_slash) (scenario.inspect scenario.my_api)
             scenario.boot "c1") scenario.api
  = updateUpstreamServer (members scenario.boot scenario.api)
      {| IP := getContainerIP scenario.boot scenario.my_api;
         Port_ := getContainerPort scenario.my_api scenario.api |}.
Proof.
  apply (start_upserts_the_resolved_address (tt := shipped.engine) (ex := shipped.exec_ok)
           (fp := shipped.join_slash) (scenario.inspect scenario.my_api)
           scenario.boot "c1" scenario.my_api scenario.api).
  - reflexivity.
  - reflexivity.
  - reflexivity.
  - split; intros k x; simpl; by rewrite lookup_empty.
  - change ("192.168.31.100" ≠ ""). discriminate.
Defined.

End event_facts.

(* ===================================================================== *)
(** * More on address resolution                                          *)
(* ===================================================================== *)

Module address_facts.
Import config nginx watcher.

Lemma getContainerIP_other_network (w : World) (container : ContainerJSON) :
  has_network container "host" = false →
  (∃ name network, (name, network) ∈ Networks container
                   ∧ name ≠ "bridge" ∧ IPAddress network ≠ "") →
  getContainerIP w container ≠ ""
  ∧ ∃ name network, (name, network) ∈ Networks container ∧ name ≠ "bridge"
                    ∧ getContainerIP w container = IPAddress network.
Proof.
  unfold getContainerIP. intros -> (name & network & Hin & Hn & Ha).
  destruct (find _ (Networks container)) as [[n e]|] eqn:Ef.
  - apply find_some in Ef as [Hin' Hf]. simpl in Hf.
    apply andb_true_iff in Hf as [Hf1 Hf2].
    apply negb_true_iff in Hf1, Hf2. apply String.eqb_neq in Hf1, Hf2.
    split; [done|]. exists n, e. split; [by apply list_elem_of_In|done].
  - exfalso. apply list_elem_of_In in Hin.
    pose proof (find_none _ _ Ef _ Hin) as Hf. simpl in Hf.
    apply String.eqb_neq in Hn, Ha. by rewrite Hn, Ha in Hf.
Qed.

(** X16.  Where [getContainerIP] takes the address from: the configured
    host address whenever the container is on the host network; otherwise the
    address of one of the container's networks other than the bridge, when
    one of them has an address (never the empty address, never the bridge's
    own); otherwise the configured host address when the container is on the
    bridge, and no address at all when it is not. *)
Theorem getContainerIP_sources (w : World) (container : ContainerJSON) :
  (has_network container "host" = true →
   getContainerIP w container = HostIP (Global (cfg w)))
  ∧ (has_network container "host" = false →
     (∃ name network, (name, network) ∈ Networks container
                      ∧ name ≠ "bridge" ∧ IPAddress network ≠ "") →
     getContainerIP w container ≠ ""
     ∧ ∃ name network, (name, network) ∈ Networks container ∧ name ≠ "bridge"
                       ∧ getContainerIP w container = IPAddress network)
  ∧ (has_network container "host" = false →
     (∀ name network, (name, network) ∈ Networks container →
                      name = "bridge" ∨ IPAddress network = "") →
     getContainerIP w container
     = if has_network container "bridge" then HostIP (Global (cfg w)) else "").
Proof.
  split; [|split].
  - unfold getContainerIP. by intros ->.
  - apply getContainerIP_other_network.
  - unfold getContainerIP. intros -> Hall.
    destruct (find _ (Networks container)) as [[n e]|] eqn:Ef; [|done].
    apply find_some in Ef as [Hin' Hf]. simpl in Hf.
    apply andb_true_iff in Hf as [Hf1 Hf2].
    apply negb_true_iff in Hf1, Hf2. apply String.eqb_neq in Hf1, Hf2.
    apply list_elem_of_In in Hin'. by destruct (Hall n e Hin').
Qed.

(** X17.  Off the bridge, port bindings play no part, and the resolved port
    is the declared target port with a protocol that the theorem fixes in
    both directions: it is the target port as UDP when the container is off
    the host network too and exposes the port as UDP but not as TCP, and the
    target port as TCP in every other case. *)
Theorem port_off_the_bridge (container : ContainerJSON) (service : ServiceConfig) :
  has_network container "bridge" = false →
  (has_network container "host" = false
   ∧ Ports container !! port_of (target_port service) "tcp" = None
   ∧ is_Some (Ports container !! port_of (target_port service) "udp")
   → getContainerPort container service = port_of (target_port service) "udp")
  ∧ (¬ (has_network container "host" = false
        ∧ Ports container !! port_of (target_port service) "tcp" = None
        ∧ is_Some (Ports container !! port_of (target_port service) "udp"))
     → getContainerPort container service = port_of (target_port service) "tcp").
Proof.
  intros Hb. unfold getContainerPort. rewrite Hb. split.
  - intros (-> & Ht & Hu).
    case_bool_decide as Ht'; [by rewrite Ht in Ht'; destruct Ht'|].
    by case_bool_decide.
  - intros Hn. destruct (has_network container "host"); [done|].
    case_bool_decide as Ht; [done|].
    case_bool_decide as Hu; [|done].
    destruct Hn. split; [done|]. split; [|done]. by apply eq_None_not_Some.
Qed.

(** A container on a macvlan network only, with 9000/udp in its port table
    and nothing under 9000/tcp: the port of the service api is 9000/udp. *)
Lemma port_off_the_bridge_witness :
  has_network observe.on_macvlan_udp "bridge" = false
  ∧ getContainerPort observe.on_macvlan_udp scenario.api
    = port_of (target_port scenario.api) "udp".
Proof.
  split; [reflexivity|].
  refine (proj1 (port_off_the_bridge observe.on_macvlan_udp scenario.api eq_refl) _).
  split; [reflexivity|]. split; [reflexivity|]. exists []. reflexivity.
Defined.

(** X18.  The address and the port are resolved independently of each
    other.  For a container that is off the host network, has a network other
    than the bridge with an address, and is also on the bridge with the
    target port published over TCP, the address is that of one of the other
    networks while the port is the host port of the bridge's binding. *)
Theorem address_and_port_of_different_networks (w : World) (container : ContainerJSON)
  (service : ServiceConfig) (binding : PortBinding) (bindings : list PortBinding) :
  has_network container "host" = false →
  (∃ name network, (name, network) ∈ Networks container
                   ∧ name ≠ "bridge" ∧ IPAddress network ≠ "") →
  has_network container "bridge" = true →
  Ports container !! port_of (target_port service) "tcp" = Some (binding :: bindings) →
  (∃ name network, (name, network) ∈ Networks container ∧ name ≠ "bridge"
                   ∧ getContainerIP w container = IPAddress network)
  ∧ getContainerPort container service = HostPort binding +:+ "/tcp".
Proof.
  intros Hhost Hother Hbridge Hp. split.
  - by apply getContainerIP_other_network.
  - unfold getContainerPort, bridge_block, first_binding. by rewrite Hhost, Hbridge, Hp.
Qed.

Lemma address_and_port_of_different_networks_witness :
  (∃ name network, (name, network) ∈ Networks observe.on_macvlan_and_bridge
                   ∧ name ≠ "bridge"
                   ∧ getContainerIP scenario.boot observe.on_macvlan_and_bridge
                     = IPAddress network)
  ∧ getContainerPort observe.on_macvlan_and_bridge scenario.api = "33000" +:+ "/tcp".
Proof.
  refine (address_and_port_of_different_networks scenario.boot observe.on_macvlan_and_bridge
            scenario.api {| pb_HostIP := "0.0.0.0"; HostPort := "33000" |} []
            eq_refl _ eq_refl _).
  - exists "lan", {| IPAddress := "10.1.2.3" |}.
    split; [apply list_elem_of_here|]. split; discriminate.
  - reflexivity.
Defined.

Example address_and_port_mixed :
  getContainerIP scenario.boot observe.on_macvlan_and_bridge = "10.1.2.3"
  ∧ getContainerPort observe.on_macvlan_and_bridge scenario.api = "33000/tcp".
Proof. by vm_compute. Qed.

End address_facts.

(* ===================================================================== *)
(** * More on the templates                                               *)
(* ===================================================================== *)

Module rendering_facts.
Import nginx shipped template_facts.

Lemma concat_map_cons {A} (f : A → string) (x : A) (l : list A) :
  concat_map f (x :: l) = f x +:+ concat_map f l.
Proof. reflexivity. Qed.

(** The lines of the template open with the line break that the lines of
    the builder end with. *)
Lemma lines_shift (l : list UpstreamServer) (rest : string) :
  concat_map server_line l +:+ nl +:+ rest
  = nl +:+ concat_map legacy.server_written l +:+ rest.
Proof.
  induction l as [|u l IH]; [reflexivity|].
  rewrite !concat_map_cons.
  change (server_line u)
    with (nl +:+ "    server " +:+ IP u +:+ ":" +:+ Port_Port (Port_ u) +:+ ";").
  change (legacy.server_written u)
    with ("    server " +:+ IP u +:+ ":" +:+ Port_Port (Port_ u) +:+ ";" +:+ nl).
  rewrite !append_assoc. rewrite IH. reflexivity.
Qed.

(** X19.  On the plain stream template, rendering gives byte for byte the
    text that the earlier manager built by hand from the same service name,
    listen port and members. *)
Theorem stream_template_renders_as_the_builder (d : StreamTemplateData) :
  legacy.stream_conf_tpl d
  = legacy.buildStreamConfigContent
      {| legacy.ServiceName := sd_ServiceName d;
         legacy.ListenPort := sd_ListenPort d;
         legacy.Upstream := sd_Upstream d |}.
Proof.
  unfold legacy.stream_conf_tpl, legacy.buildStreamConfigContent. simpl.
  rewrite !append_assoc. rewrite lines_shift. reflexivity.
Qed.

Lemma occurs_server_line (u : UpstreamServer) :
  occurs ("server " +:+ IP u +:+ ":" +:+ Port_Port (Port_ u) +:+ ";") (server_line u).
Proof.
  exists (nl +:+ "    "), "". unfold server_line. rewrite !append_assoc. reflexivity.
Qed.

Lemma occurs_concat_map {A} (f : A → string) (needle : string) (x : A) (l : list A) :
  x ∈ l → occurs needle (f x) → occurs needle (concat_map f l).
Proof.
  intros Hin Hx. induction Hin as [x l|x y l Hin IH]; rewrite concat_map_cons.
  - by apply occurs_before.
  - by apply occurs_after, IH.
Qed.

(** X20.  The text rendered from conf/http.conf.tpl lists every member of
    the upstream: for each of them it holds the line
    [server <ip>:<port number>;]. *)
Theorem http_conf_tpl_lists_every_member (d : HTTPTemplateData) (u : UpstreamServer) :
  u ∈ td_Upstream d →
  occurs ("server " +:+ IP u +:+ ":" +:+ Port_Port (Port_ u) +:+ ";") (http_conf_tpl d).
Proof.
  intros Hin. unfold http_conf_tpl. apply occurs_before. unfold upstream_block.
  do 6 apply occurs_after. apply occurs_before.
  apply (occurs_concat_map server_line _ u); [done|]. apply occurs_server_line.
Qed.

Lemma http_conf_tpl_lists_every_member_witness :
  occurs ("server " +:+ "10.0.0.1" +:+ ":" +:+ Port_Port "80/tcp" +:+ ";")
    (http_conf_tpl
       {| td_ServiceName := "api"; td_Domain := "api.example.com"; td_Path := "/";
          td_Upstream := [{| IP := "10.0.0.1"; Port_ := "80/tcp" |}];
          td_EnableWebSocket := false; td_ClientMaxBodySize := "";
          td_ProxyHTTPVersion := ""; td_ProxyHeaders := []; td_ProxyRedirect := "";
          td_EnableSSL := false; td_SSLCertificate := ""; td_SSLCertificateKey := "";
          td_ForceHTTPS := false |}).
Proof.
  apply (http_conf_tpl_lists_every_member
           {| td_ServiceName := "api"; td_Domain := "api.example.com"; td_Path := "/";
              td_Upstream := [{| IP := "10.0.0.1"; Port_ := "80/tcp" |}];
              td_EnableWebSocket := false; td_ClientMaxBodySize := "";
              td_ProxyHTTPVersion := ""; td_ProxyHeaders := []; td_ProxyRedirect := "";
              td_EnableSSL := false; td_SSLCertificate := ""; td_SSLCertificateKey := "";
              td_ForceHTTPS := false |}
           {| IP := "10.0.0.1"; Port_ := "80/tcp" |}).
  apply list_elem_of_here.
Defined.

End rendering_facts.

(* ===================================================================== *)
(** * Edges: a missing configuration file, an unset template              *)
(* ===================================================================== *)

Module edge_facts.
Import config nginx watcher.

Section edges.
Context {tt : TextTemplate} {ex : Exec} {fp : os.Filepath} {ym : Yaml}.

(** X21.  The poller does not see the removal of the configuration file as
    a change: while the file is absent a tick does nothing at all, so the
    configuration loaded last stays in force. *)
Theorem missing_file_is_no_change (w : World) :
  os.files (fs w) !! filePath (cfg w) = None →
  HasChanged (fs w) (cfg w) = false ∧ watchConfigFile_tick w = (w, false).
Proof.
  intros Hf.
  assert (Hc : HasChanged (fs w) (cfg w) = false).
  { unfold HasChanged, os.Stat. case_bool_decide; [done|]. by rewrite Hf. }
  split; [done|]. unfold watchConfigFile_tick. by rewrite Hc.
Qed.

(** X22.  A template path that is not set is not replaced by a default for
    http services, nor for stream services without SNI: rendering fails at
    once, whatever is on the disk, and the text is empty.  Only the SNI
    template has a default path, conf/stream-sni.conf.tpl. *)
Theorem unset_template_renders_nothing (w : World) :
  (∀ h, HTTPTemplateFile (Global (cfg w)) = "" →
        buildHTTPConfigContent w h
        = (log_Printf w (LogLoadHTTPTemplate ErrTemplatePathEmpty), ""))
  ∧ (∀ s, StreamTemplateFile (Global (cfg w)) = "" → s_EnableSNI s = false →
          buildStreamConfigContent w s
          = (log_Printf w (LogLoadStreamTemplate ErrTemplatePathEmpty), ""))
  ∧ (∀ s, StreamSNITemplateFile (SNI_ (Global (cfg w))) = "" → s_EnableSNI s = true →
          os.files (fs w) !! "conf/stream-sni.conf.tpl" = None →
          "conf/stream-sni.conf.tpl" ∉ os.denied (fs w) →
          buildStreamConfigContent w s
          = (log_Printf w (LogLoadStreamTemplate
                             (ErrTemplateMissing "conf/stream-sni.conf.tpl")), "")).
Proof.
  split; [|split].
  - intros h Ht. unfold buildHTTPConfigContent, loadTemplate. by rewrite Ht.
  - intros s Ht Hs. unfold buildStreamConfigContent, loadTemplate. by rewrite Hs, Ht.
  - intros s Ht Hs Hf Hd. unfold buildStreamConfigContent, loadTemplate, os.Stat.
    rewrite Hs, Ht. simpl. rewrite bool_decide_eq_false_2; [|done]. by rewrite Hf.
Qed.

End edges.

Lemma missing_file_is_no_change_witness :
  HasChanged (fs scenario.boot) (cfg scenario.boot) = false
  ∧ watchConfigFile_tick (ym := scenario.decoder) scenario.boot = (scenario.boot, false).
Proof.
  apply (missing_file_is_no_change (ym := scenario.decoder) scenario.boot).
  reflexivity.
Defined.

(** The declared configuration of the scenario sets no SNI template, and
    the default one is not on this disk. *)
Lemma unset_template_renders_nothing_witness :
  buildStreamConfigContent (tt := shipped.engine)
    (NewManager scenario.declared scenario.disk_without_template) scenario.tls_entry
  = (log_Printf (NewManager scenario.declared scenario.disk_without_template)
       (LogLoadStreamTemplate (ErrTemplateMissing "conf/stream-sni.conf.tpl")), "").
Proof.
  apply (proj2 (proj2 (unset_template_renders_nothing (tt := shipped.engine)
                         (NewManager scenario.declared scenario.disk_without_template)))
           scenario.tls_entry).
  - reflexivity.
  - reflexivity.
  - reflexivity.
  - apply not_elem_of_empty.
Defined.

End edge_facts.
